(** * date-header: detection of cached responses through the Date header

    A shallow embedding of [src/cache_identification.py] and of the probe
    loop of [src/date_header.py], with the properties of the detection
    protocol stated over it. *)

From Stdlib Require Import Ascii String.
From stdpp Require Import base strings list gmap fin_maps.

Local Open Scope string_scope.
Local Open Scope list_scope.

(** ** Python strings

    Header names and values reach the program as [str] objects decoded from
    ISO-8859-1, so one character is one code point below 256: an [ascii]. *)

Module PyStr.

(** [str.lower()] on one code point below 256: the letters [A]-[Z] and the
    Latin-1 capitals U+00C0-U+00DE (without the multiplication sign U+00D7)
    move 32 places up; everything else is kept. *)
Definition lower_char (c : ascii) : ascii :=
  let n := nat_of_ascii c in
  if (((65 <=? n) && (n <=? 90))
      || ((192 <=? n) && (n <=? 222) && negb (n =? 215)))%nat
  then ascii_of_nat (n + 32)
  else c.

(** [s.lower()] *)
Fixpoint lower (s : string) : string :=
  match s with
  | EmptyString => EmptyString
  | String c s' => String (lower_char c) (lower s')
  end.

(** [s.startswith(p)] *)
Fixpoint startswith (p s : string) : bool :=
  match p, s with
  | EmptyString, _ => true
  | String _ _, EmptyString => false
  | String a p', String b s' => if Ascii.eqb a b then startswith p' s' else false
  end.

(** [sub in s]: does [sub] occur in [s] as a contiguous run of characters *)
Fixpoint contains (sub s : string) : bool :=
  startswith sub s
  || match s with
     | EmptyString => false
     | String _ s' => contains sub s'
     end.

(** [s.endswith(p)] *)
Fixpoint endswith (p s : string) : bool :=
  String.eqb p s
  || match s with
     | EmptyString => false
     | String _ s' => endswith p s'
     end.

(** [x in l] for a list of strings *)
Definition in_list (x : string) (l : list string) : bool :=
  existsb (String.eqb x) l.

(** What "occurs in" means, independently of the search above. *)
Definition occurs (sub s : string) : Prop :=
  exists pre post : string, s = pre +:+ sub +:+ post.

(** "[sub] occurs case-insensitively in [s]" *)
Definition occurs_ci (sub s : string) : Prop :=
  occurs (lower sub) (lower s).

End PyStr.

(** ** cache_identification.py *)

Module CacheIdentification.
Import PyStr.

(** One entry of [KEYWORDS]: the substrings looked for in header names and
    the ones looked for in header values. *)
Record keywords := { kw_name : list string; kw_value : list string }.

(** [KEYWORDS], in the order the dictionary literal lists its providers
    (the order [KEYWORDS.items()] iterates in). *)
Definition KEYWORDS : list (string * keywords) :=
  [ ("akamai",
     {| kw_name := ["x-akamai-"];
        kw_value := ["akamai"; "akamaitechnologies"; "akamaiedge"; "AkamaiGHost"] |});
    ("cdn77",
     {| kw_name := ["x-cdn77"; "x-77"];
        kw_value := ["cdn77"] |});
    ("cloudflare",
     {| kw_name := ["cf-cache-status"; "cf-ray"; "cf-request-id"];
        kw_value := ["cloudflare"] |});
    ("cloudfront",
     {| kw_name := ["x-amz-cf-pop"; "x-amz-cf-id"; "x-amz-"];
        kw_value := ["cloudfront"; "cloudfront.net"] |});
    ("fastly",
     {| kw_name := [];
        kw_value := ["fastly"] |});
    ("google",
     {| kw_name := ["x-google-"; "x-goog-"];
        kw_value := ["1.1 google"] |});
    ("keycdn",
     {| kw_name := [];
        kw_value := ["keycdn"] |});
    ("azure",
     {| kw_name := ["x-msedge-"];
        kw_value := ["azure"] |});
    ("apache, ats",
     {| kw_name := [];
        kw_value := ["apache"; "ATS/"] |});
    ("nginx",
     {| kw_name := ["x-nginx"];
        kw_value := ["nginx"] |});
    ("rack_cache",
     {| kw_name := ["x-rack-cache"];
        kw_value := ["rack-cache"] |});
    ("squid",
     {| kw_name := [];
        kw_value := ["squid"] |});
    ("varnish",
     {| kw_name := ["x-varnish"];
        kw_value := ["varnish"] |}) ].

(** [DENYLIST['name']] and [DENYLIST['value']] *)
Definition DENYLIST_name : list string :=
  [ "content-security-policy";
    "content-security-policy-report-only";
    "access-control-allow-origin" ].

Definition DENYLIST_value : list string := [].

(** [any(keyword.lower() in s.lower() for keyword in kws)] *)
Definition any_keyword_in (kws : list string) (s : string) : bool :=
  existsb (fun keyword => contains (lower keyword) (lower s)) kws.

(** The body of the inner loop for one provider: what the two [if]s append
    to [providers]. *)
Definition provider_appends (name value : string) (pk : string * keywords)
  : list string :=
  (if any_keyword_in (kw_name pk.2) name then [pk.1] else [])
  ++ (if any_keyword_in (kw_value pk.2) value then [pk.1] else []).

(** The body of the outer loop for one header: the two [continue]s, then the
    loop over the providers. *)
Definition header_appends (h : string * string) : list string :=
  let '(name, value) := h in
  if in_list name DENYLIST_name then []
  else if in_list value DENYLIST_value then []
  else flat_map (provider_appends name value) KEYWORDS.

(** The list [providers] when the outer loop is over; [headers] is what
    [headers.items()] yields: the pairs of the header collection in order,
    every name spelled as it was received. *)
Definition providers (headers : list (string * string)) : list string :=
  flat_map header_appends headers.

(** [identify]: [list(set(providers))]. The order of the result is the one
    of the set's iteration and no property below depends on it. *)
Definition identify (headers : list (string * string)) : list string :=
  elements (list_to_set (providers headers) : gset string).

End CacheIdentification.

(** ** date_header.py: data *)

Module DateHeader.
Import PyStr.

(** A plain [dict] from strings to strings, in insertion order. A
    [CaseInsensitiveDict] (the [headers] of a response or of a request) is
    held the same way, as the pairs [items()] yields: the names keep the
    spelling they arrived in and are looked up through [lower]. *)
Definition dict : Type := list (string * string).

(** [key in headers] on a [CaseInsensitiveDict] *)
Definition ci_contains (key : string) (headers : dict) : bool :=
  existsb (fun kv => String.eqb (lower kv.1) (lower key)) headers.

(** [headers[key]] on a [CaseInsensitiveDict]; [None] stands for [KeyError] *)
Fixpoint ci_getitem (key : string) (headers : dict) : option string :=
  match headers with
  | [] => None
  | (k, v) :: rest =>
      if String.eqb (lower k) (lower key) then Some v else ci_getitem key rest
  end.

(** The keyword arguments of one [browser.get] call; [None] is an argument
    the call leaves out. *)
Record Request := mkRequest {
  req_url : string;
  req_headers : option dict;
  req_cookies : option dict;
  req_allow_redirects : option bool;
  req_timeout : option N
}.

(** What the program reads of a response object. *)
Record Response := mkResponse {
  resp_url : string;              (* response.url, after redirects *)
  resp_status_code : Z;           (* response.status_code *)
  resp_headers : dict;            (* response.headers *)
  resp_text : string;             (* response.text *)
  resp_request_headers : dict     (* response.request.headers *)
}.

(** The exception classes the two [try] statements tell apart: the six
    classes of the inner [except] clause, any other [Exception], and
    [KeyboardInterrupt]. *)
Inductive exc_class :=
| SSLError | ConnectionError | ReadTimeout | TooManyRedirects
| ChunkedEncodingError | InvalidHeader
| OtherException
| KeyboardInterrupt.

Record exception := mkException {
  exc_class_of : exc_class;
  exc_type : string;        (* type(e).__name__ *)
  exc_str : string;         (* str(e) *)
  exc_traceback : string    (* traceback.format_exc() while e is handled *)
}.

(** [except (SSLError, ConnectionError, ReadTimeout, TooManyRedirects,
    ChunkedEncodingError, InvalidHeader)] *)
Definition is_transport_error (e : exception) : bool :=
  match exc_class_of e with
  | SSLError | ConnectionError | ReadTimeout | TooManyRedirects
  | ChunkedEncodingError | InvalidHeader => true
  | OtherException | KeyboardInterrupt => false
  end.

(** The values the statistics document stores under the keys of one URL. *)
Inductive pyval :=
| VStr (s : string)
| VBool (b : bool)
| VList (l : list string).

(** One element of [statistics['errors']] *)
Record error_record := mkError {
  err_url : option string;
  err_type : string;
  err_error : string;
  err_traceback : string
}.

(** The global [statistics]; [errors = None] is a document without the key
    ['errors']. *)
Record Statistics := mkStatistics {
  site : string;
  cache_headers : bool;
  tested : bool;
  URLs : gmap string (gmap string pyval);
  errors : option (list error_record)
}.

(** Lines 170-173: the document [main] starts from. *)
Definition init_statistics (SITE : string) : Statistics :=
  {| site := SITE; cache_headers := false; tested := false;
     URLs := ∅; errors := None |}.

(** One value of [network[url]]:
    [{'request': ..., 'response': {'status_code': ..., 'headers': ...}}] *)
Record exchange := mkExchange {
  ex_request : dict;
  ex_status_code : Z;
  ex_headers : dict
}.

Definition exchange_of (r : Response) : exchange :=
  {| ex_request := resp_request_headers r;
     ex_status_code := resp_status_code r;
     ex_headers := resp_headers r |}.

Inductive level := INFO | ERROR.

(** The calls the loop makes on its collaborators, in the order it makes
    them. *)
Inductive event :=
| EvGet (r : Request)                          (* browser.get(...) *)
| EvSleep (ms : N)                             (* time.sleep, in milliseconds *)
| EvClassify (headers : dict) (verdict : string)
                                               (* wcde.cache_headers_heuristics *)
| EvCacheBust (url : string) (headers cookies : dict) (vary : string)
                                               (* cache_buster.cache_bust_request *)
| EvAddToQueue (link : string)                 (* crawler.add_to_queue *)
| EvAddToVisited (url : string)                (* crawler.add_to_visited *)
| EvLog (l : level) (msg : string).            (* logger.info / logger.error *)

(** [bcolors] *)
Definition ESC : string := String (ascii_of_nat 27) EmptyString.
Definition OKGREEN : string := ESC +:+ "[92m".
Definition WARNING : string := ESC +:+ "[93m".
Definition ENDC : string := ESC +:+ "[0m".

Definition TIMEOUT : N := 30.

Definition USER_AGENT : string :=
  "Mozilla/5.0 (X11; Linux x86_64) AppleWebKit/537.36 (KHTML, like Gecko) Chrome/115.0.0.0 Safari/537.36".

(** Lines 179-190 *)
Definition headers : dict :=
  [ ("User-Agent", USER_AGENT);
    ("Accept", "text/html,application/xhtml+xml,application/xml;q=0.9,image/avif,image/webp,*/*;q=0.8");
    ("Accept-Language", "en-US,en;q=0.5");
    ("Upgrade-Insecure-Requests", "1");
    ("Sec-Fetch-Dest", "document");
    ("Sec-Fetch-Mode", "navigate");
    ("Sec-Fetch-Site", "none");
    ("Sec-Fetch-User", "?1");
    ("DNT", "1");
    ("Sec-GPC", "1") ].

(** [browser.get(url, allow_redirects=True, timeout=TIMEOUT)] *)
Definition first_request (url : string) : Request :=
  mkRequest url None None (Some true) (Some TIMEOUT).

(** [browser.get(url)] *)
Definition plain_request (url : string) : Request :=
  mkRequest url None None None None.

(** [browser.get(_url, headers=_headers, cookies=_cookies, allow_redirects=False)] *)
Definition busted_request (_url : string) (_headers _cookies : dict) : Request :=
  mkRequest _url (Some _headers) (Some _cookies) (Some false) None.

(** ** The collaborators

    The modules [crawler], [cache_buster] and [wcde] are imported by
    [date_header.py]; the loop is embedded over their interfaces. *)

(** The methods of [Crawler] the loop calls, over the crawler's state. *)
Class Crawler (C : Type) := {
  should_continue : C -> bool;
  get_url_from_queue : C -> option string * C;
  is_visited : C -> string -> bool;
  EXCLUDED_EXTENSIONS : C -> list string;
  get_links : C -> string -> string -> list string;
  add_to_queue : C -> string -> C;
  add_to_visited : C -> string -> C
}.

(** What answers from outside the program: the network behind
    [Browser.get], which returns a response or raises, and the entropy
    [CacheBuster.cache_bust_request] draws on. Of the calls the loop makes
    on its collaborators, [browser.get] is the one taken to raise: a
    transport error, another exception, or the [KeyboardInterrupt] that
    arrives while it waits. *)
Class World (W : Type) := {
  browser_get : W -> Request -> (Response + exception) * W;
  cache_bust_request :
    W -> string -> dict -> dict -> string -> (string * dict * dict) * W
}.

(** The command line and the pure library functions. *)
Record Settings := mkSettings {
  args_url : option string;                    (* args.url *)
  args_exclude : string;                       (* args.exclude *)
  cookies : dict;                              (* the cookie file, or {} *)
  re_search_any : string -> string -> bool;
    (* any(re.search(regex.strip(), url) for regex in exclude.split(',')) *)
  urlparse_path : string -> string;            (* urlparse(url).path *)
  cache_headers_heuristics : dict -> string;   (* WCDE.cache_headers_heuristics *)
  own_traceback : string -> string
    (* traceback.format_exc() for an exception of the named type raised by
       a statement of main itself *)
}.

(** Truth value of a string, and of an optional string ([None] or [str]). *)
Definition truthy (s : string) : bool := negb (String.eqb s "").
Definition truthy_opt (o : option string) : bool :=
  match o with None => false | Some s => truthy s end.

(** ** The state of a run and the monad of the loop body *)

(** The locals of [main] that live across statements and iterations:
    [url] ([None] until the queue yields one), [response2] and
    [cache_status2] ([None] while unbound). *)
Record locals := mkLocals {
  l_url : option string;
  l_response2 : option Response;
  l_cache_status2 : option string
}.

(** How a statement ends: normally with a value, with [continue], with
    [break], or by raising. *)
Inductive outcome (A : Type) :=
| Val (a : A)
| Continue
| Break
| Raise (e : exception).
Arguments Val {A} a.
Arguments Continue {A}.
Arguments Break {A}.
Arguments Raise {A} e.

(** How the loop ends. *)
Inductive loop_end :=
| Finished                  (* the condition failed, or a [break] *)
| Uncaught (e : exception)  (* an exception left the [try] *)
| OutOfFuel.

Section Loop.

Context {C W : Type} `{!Crawler C} `{!World W}.
Variable cfg : Settings.

Record state := mkState {
  world : W;
  crawler : C;
  statistics : Statistics;
  network : gmap string (gmap string exchange);
  vars : locals;
  trace : list event
}.

Definition set_world (w : W) (s : state) : state :=
  mkState w (crawler s) (statistics s) (network s) (vars s) (trace s).
Definition set_crawler (c : C) (s : state) : state :=
  mkState (world s) c (statistics s) (network s) (vars s) (trace s).
Definition set_statistics (st : Statistics) (s : state) : state :=
  mkState (world s) (crawler s) st (network s) (vars s) (trace s).
Definition set_network (n : gmap string (gmap string exchange)) (s : state)
  : state :=
  mkState (world s) (crawler s) (statistics s) n (vars s) (trace s).
Definition set_vars (l : locals) (s : state) : state :=
  mkState (world s) (crawler s) (statistics s) (network s) l (trace s).
Definition add_event (e : event) (s : state) : state :=
  mkState (world s) (crawler s) (statistics s) (network s) (vars s)
          (trace s ++ [e]).

(** Statements: the state changes made before a [continue], a [break] or
    an exception stay made. *)
Definition M (A : Type) : Type := state -> outcome A * state.

Definition ret {A} (a : A) : M A := fun s => (Val a, s).

Definition bind {A B} (c : M A) (k : A -> M B) : M B :=
  fun s =>
    match c s with
    | (Val a, s') => k a s'
    | (Continue, s') => (Continue, s')
    | (Break, s') => (Break, s')
    | (Raise e, s') => (Raise e, s')
    end.

Notation "'let*' x ':=' c 'in' k" := (bind c (fun x => k))
  (at level 10, x name, c at level 100, k at level 200).
Notation "c >>> k" := (bind c (fun _ => k))
  (at level 90, right associativity).

Definition continue_ {A} : M A := fun s => (Continue, s).
Definition break_ {A} : M A := fun s => (Break, s).
Definition raise {A} (e : exception) : M A := fun s => (Raise e, s).

(** An exception raised by a statement of [main] itself. *)
Definition own_exception (type_name msg : string) : exception :=
  mkException OtherException type_name msg (own_traceback cfg type_name).

(** [try: c  except <classes> as e: handler e] *)
Definition try_except {A} (c : M A) (caught : exception -> bool)
    (handler : exception -> M A) : M A :=
  fun s =>
    match c s with
    | (Raise e, s') => if caught e then handler e s' else (Raise e, s')
    | r => r
    end.

(** *** The calls on the collaborators *)

Definition emit (e : event) : M unit := fun s => (Val tt, add_event e s).

Definition logger_info (msg : string) : M unit := emit (EvLog INFO msg).
Definition logger_error (msg : string) : M unit := emit (EvLog ERROR msg).
Definition time_sleep (ms : N) : M unit := emit (EvSleep ms).

(** [browser.get(...)]: the request goes out, then the call returns the
    response or raises. *)
Definition get (r : Request) : M Response :=
  fun s =>
    let '(res, w) := browser_get (world s) r in
    let s' := set_world w (add_event (EvGet r) s) in
    match res with
    | inl response => (Val response, s')
    | inr e => (Raise e, s')
    end.

(** [wcde.cache_headers_heuristics(h)] *)
Definition classify (h : dict) : M string :=
  let verdict := cache_headers_heuristics cfg h in
  emit (EvClassify h verdict) >>> ret verdict.

(** [cache_buster.cache_bust_request(url, headers=..., cookies=..., vary=...)] *)
Definition cache_bust (url : string) (hs cs : dict) (vary : string)
  : M (string * dict * dict) :=
  fun s =>
    let '(res, w) := cache_bust_request (world s) url hs cs vary in
    (Val res, set_world w (add_event (EvCacheBust url hs cs vary) s)).

Definition crawler_get_url_from_queue : M (option string) :=
  fun s =>
    let '(url, c) := get_url_from_queue (crawler s) in
    (Val url, set_crawler c s).

Definition crawler_is_visited (url : string) : M bool :=
  fun s => (Val (is_visited (crawler s) url), s).

Definition crawler_excluded_extensions : M (list string) :=
  fun s => (Val (EXCLUDED_EXTENSIONS (crawler s)), s).

Definition crawler_get_links (base html : string) : M (list string) :=
  fun s => (Val (get_links (crawler s) base html), s).

Definition crawler_add_to_queue (link : string) : M unit :=
  fun s =>
    (Val tt, set_crawler (add_to_queue (crawler s) link)
               (add_event (EvAddToQueue link) s)).

Definition crawler_add_to_visited (url : string) : M unit :=
  fun s =>
    (Val tt, set_crawler (add_to_visited (crawler s) url)
               (add_event (EvAddToVisited url) s)).

(** [for x in l: body x] *)
Fixpoint for_each {A} (l : list A) (body : A -> M unit) : M unit :=
  match l with
  | [] => ret tt
  | x :: rest => body x >>> for_each rest body
  end.

(** *** Reads and writes of the locals and of the two global dictionaries *)

Definition assign_url (url : option string) : M unit :=
  fun s => (Val tt, set_vars (mkLocals url (l_response2 (vars s))
                                        (l_cache_status2 (vars s))) s).

Definition assign_response2 (r : Response) : M unit :=
  fun s => (Val tt, set_vars (mkLocals (l_url (vars s)) (Some r)
                                        (l_cache_status2 (vars s))) s).

Definition assign_cache_status2 (v : string) : M unit :=
  fun s => (Val tt, set_vars (mkLocals (l_url (vars s)) (l_response2 (vars s))
                                        (Some v)) s).

(** The value of [url] *)
Definition read_url : M (option string) :=
  fun s => (Val (l_url (vars s)), s).

(** Reading [response2] or [cache_status2] while it is unbound raises
    [UnboundLocalError]. *)
Definition read_response2 : M Response :=
  fun s =>
    match l_response2 (vars s) with
    | Some r => (Val r, s)
    | None => (Raise (own_exception "UnboundLocalError" "response2"), s)
    end.

Definition read_cache_status2 : M string :=
  fun s =>
    match l_cache_status2 (vars s) with
    | Some v => (Val v, s)
    | None => (Raise (own_exception "UnboundLocalError" "cache_status2"), s)
    end.

(** [headers[key]] on a response's headers *)
Definition getitem (key : string) (h : dict) : M string :=
  match ci_getitem key h with
  | Some v => ret v
  | None => raise (own_exception "KeyError" key)
  end.

(** [statistics['cache_headers'] = True] *)
Definition set_cache_headers_true : M unit :=
  fun s =>
    let st := statistics s in
    (Val tt, set_statistics
               (mkStatistics (site st) true (tested st) (URLs st) (errors st)) s).

(** [if not 'errors' in statistics: statistics['errors'] = []] and then
    [statistics['errors'].append(r)] *)
Definition errors_append (r : error_record) : M unit :=
  fun s =>
    let st := statistics s in
    let old := match errors st with None => [] | Some l => l end in
    (Val tt, set_statistics
               (mkStatistics (site st) (cache_headers st) (tested st) (URLs st)
                             (Some (old ++ [r])%list)) s).

Definition set_URLs (u : gmap string (gmap string pyval)) (s : state) : state :=
  let st := statistics s in
  set_statistics
    (mkStatistics (site st) (cache_headers st) (tested st) u (errors st)) s.

(** [statistics['URLs'][url] = entry] *)
Definition urls_assign (url : string) (entry : gmap string pyval) : M unit :=
  fun s => (Val tt, set_URLs (<[url := entry]> (URLs (statistics s))) s).

(** [statistics['URLs'][url][key] = v] *)
Definition urls_setitem (url key : string) (v : pyval) : M unit :=
  fun s =>
    match URLs (statistics s) !! url with
    | Some entry =>
        (Val tt, set_URLs (<[url := <[key := v]> entry]> (URLs (statistics s))) s)
    | None => (Raise (own_exception "KeyError" url), s)
    end.

(** [statistics['URLs'][url]['date'].append(d)] *)
Definition urls_date_append (url d : string) : M unit :=
  fun s =>
    match URLs (statistics s) !! url with
    | Some entry =>
        match entry !! "date" with
        | Some (VList l) =>
            (Val tt, set_URLs (<[url := <["date" := VList (l ++ [d])%list]> entry]>
                                 (URLs (statistics s))) s)
        | Some _ => (Raise (own_exception "AttributeError" "append"), s)
        | None => (Raise (own_exception "KeyError" "date"), s)
        end
    | None => (Raise (own_exception "KeyError" url), s)
    end.

(** [network[url] = d] *)
Definition network_assign (url : string) (d : gmap string exchange) : M unit :=
  fun s => (Val tt, set_network (<[url := d]> (network s)) s).

(** [network[url][key] = x] *)
Definition network_setitem (url key : string) (x : exchange) : M unit :=
  fun s =>
    match network s !! url with
    | Some d => (Val tt, set_network (<[url := <[key := x]> d]> (network s)) s)
    | None => (Raise (own_exception "KeyError" url), s)
    end.

(** [key in network[url]] *)
Definition network_has (url key : string) : M bool :=
  fun s =>
    match network s !! url with
    | Some d => (Val (bool_decide (is_Some (d !! key))), s)
    | None => (Raise (own_exception "KeyError" url), s)
    end.

(** ** The loop of [main] (lines 216-411) *)

(** Lines 218-234: take a URL from the queue and decide whether to visit
    it. *)
Definition select_url : M string :=
  let* url := crawler_get_url_from_queue in
  assign_url url >>>
  match url with
  | None => break_
  | Some url =>
      let* visited := crawler_is_visited url in
      if visited then continue_
      else if truthy (args_exclude cfg)
                && re_search_any cfg (args_exclude cfg) url then continue_
      else
        let* exts := crawler_excluded_extensions in
        if existsb (fun ext => endswith ext (urlparse_path cfg url)) exts
        then continue_
        else logger_info ("Visiting URL: " +:+ url) >>> ret url
  end.

(** Lines 236-250: the first request, with its own [except] clause. *)
Definition fetch1 (url : string) : M Response :=
  try_except (get (first_request url)) is_transport_error
    (fun e =>
       logger_error ("ERROR: " +:+ url +:+ " -> " +:+ exc_str e) >>>
       errors_append (mkError (Some url) (exc_type e) (exc_str e)
                              (exc_traceback e)) >>>
       continue_).

(** Lines 252-272: queue the links, mark the URL visited, follow the
    redirect, open the network entry. The result is [url] as the rest of
    the body sees it. *)
Definition register (url : string) (response : Response) : M string :=
  (if negb (truthy_opt (args_url cfg)) then
     let* links := crawler_get_links (resp_url response) (resp_text response) in
     for_each links crawler_add_to_queue
   else ret tt) >>>
  crawler_add_to_visited url >>>
  let* url :=
    (if negb (String.eqb (resp_url response) url) then
       assign_url (Some (resp_url response)) >>>
       crawler_add_to_visited (resp_url response) >>>
       ret (resp_url response)
     else ret url) in
  network_assign url {[ "request1" := exchange_of response ]} >>>
  ret url.

(** Lines 274-312: is the response cached? The result is [cache_status];
    the statement ends in [continue] when the URL is given up. *)
Definition cache_gate (url : string) (response : Response) : M string :=
  let* cache_status := classify (resp_headers response) in
  (if negb (String.eqb cache_status "-") then set_cache_headers_true
   else ret tt) >>>
  (if String.eqb cache_status "HIT" then
     logger_info ("The response gets cached -> cache_status = "
                  +:+ cache_status)
   else if String.eqb cache_status "MISS" then
     time_sleep 1000 >>>
     let* response2 := get (plain_request url) in
     assign_response2 response2 >>>
     time_sleep 2000 >>>
     let* response2 := get (plain_request url) in
     assign_response2 response2 >>>
     network_setitem url "request2" (exchange_of response2) >>>
     let* cache_status2 := classify (resp_headers response2) in
     assign_cache_status2 cache_status2 >>>
     (if negb (String.eqb cache_status2 "-") then set_cache_headers_true
      else ret tt) >>>
     if String.eqb cache_status2 "HIT" then
       logger_info ("The response gets cached -> cache_status = "
                    +:+ cache_status +:+ "/" +:+ cache_status2)
     else
       logger_info ("The response does not get cached -> cache_status = "
                    +:+ cache_status +:+ "/" +:+ cache_status2) >>>
       continue_
   else
     logger_info ("The response does not get cached -> cache_status = "
                  +:+ cache_status) >>>
     continue_) >>>
  ret cache_status.

(** Lines 371-395: the cache-busted request and its Date. *)
Definition cache_bust_probe (url : string) (response_headers : dict) : M unit :=
  time_sleep 1500 >>>
  let* busted :=
    cache_bust url headers (cookies cfg)
      (if ci_contains "Vary" response_headers
       then default "" (ci_getitem "Vary" response_headers)
       else "") in
  let '(_url, _headers, _cookies) := busted in
  let* response3 := get (busted_request _url _headers _cookies) in
  network_setitem url "third" (exchange_of response3) >>>
  if ci_contains "Date" (resp_headers response3) then
    let* d3 := getitem "Date" (resp_headers response3) in
    logger_info ("Found Date header: " +:+ d3) >>>
    urls_date_append url d3 >>>
    let* d := getitem "Date" response_headers in
    if negb (String.eqb d d3) then
      logger_info ("The Date header is " +:+ OKGREEN +:+ "changing" +:+ ENDC
                   +:+ " after cache busting")
    else
      logger_info ("The Date header is " +:+ WARNING +:+ "not changing"
                   +:+ ENDC +:+ " after cache busting")
  else ret tt.

(** Lines 351-395: the second look at the Date after 1.5 s, then the
    cache-busted request. *)
Definition temporal_check (url : string) (response : Response)
    (response_headers : dict) : M unit :=
  time_sleep 1500 >>>
  let* response2 := get (plain_request url) in
  assign_response2 response2 >>>
  network_setitem url "second" (exchange_of response2) >>>
  if ci_contains "Date" (resp_headers response2) then
    let* d2 := getitem "Date" (resp_headers response2) in
    logger_info ("Found Date header: " +:+ d2) >>>
    urls_date_append url d2 >>>
    let* d := getitem "Date" (resp_headers response) in
    (if negb (String.eqb d d2) then
       logger_info ("The Date header is " +:+ OKGREEN +:+ "changing" +:+ ENDC)
     else
       logger_info ("The Date header is " +:+ WARNING +:+ "not changing"
                    +:+ ENDC)) >>>
    cache_bust_probe url response_headers
  else ret tt.

(** Lines 314-340: the URL gets cached; open its entry in the statistics
    and choose the response whose headers are looked at. The result is
    [response_headers]. *)
Definition open_entry (url : string) (response : Response)
    (cache_status : string) : M dict :=
  logger_info ("Testing the Date header on " +:+ url) >>>
  let* status :=
    (if String.eqb cache_status "HIT" then ret cache_status
     else read_cache_status2) in
  urls_assign url {[ "cache_status" := VStr status; "date" := VList [] ]} >>>
  let* has_response2 := network_has url "response2" in
  if has_response2 then
    let* response2 := read_response2 in
    network_setitem url "first" (exchange_of response2) >>>
    ret (resp_headers response2)
  else
    network_setitem url "first" (exchange_of response) >>>
    ret (resp_headers response).

(** Lines 314-395: the entry, the Date of the chosen response, and from
    there the two further looks. *)
Definition date_probe (url : string) (response : Response)
    (cache_status : string) : M unit :=
  let* response_headers := open_entry url response cache_status in
  if ci_contains "Date" response_headers then
    let cache := CacheIdentification.identify response_headers in
    urls_setitem url "cache" (VList cache) >>>
    logger_info ("Identified cache: " +:+ OKGREEN
                 +:+ String.concat ", " cache +:+ ENDC) >>>
    let* d := getitem "Date" response_headers in
    logger_info ("Found Date header: " +:+ d) >>>
    urls_date_append url d >>>
    temporal_check url response response_headers
  else ret tt.

(** Lines 218-397: the body of the [try]. *)
Definition body : M unit :=
  let* url := select_url in
  let* response := fetch1 url in
  let* url := register url response in
  let* cache_status := cache_gate url response in
  date_probe url response cache_status >>>
  break_.

(** [str(url)] for the handler's message *)
Definition str_of_url (url : option string) : string :=
  match url with Some u => u | None => "None" end.

(** Lines 399-411: the two handlers of the outer [try]. *)
Definition iteration : M unit :=
  try_except body (fun _ => true)
    (fun e =>
       match exc_class_of e with
       | KeyboardInterrupt => break_
       | _ =>
           let* url := read_url in
           logger_error ("ERROR: " +:+ str_of_url url +:+ " -> "
                         +:+ exc_str e) >>>
           logger_error (exc_traceback e) >>>
           errors_append (mkError url (exc_type e) (exc_str e)
                                  (exc_traceback e))
       end).

(** [while crawler.should_continue(): ...], cut after [fuel] iterations.
    The state returned with [OutOfFuel] is the one reached by then. *)
Fixpoint while_loop (fuel : nat) (s : state) : loop_end * state :=
  match fuel with
  | O => (OutOfFuel, s)
  | S fuel' =>
      if should_continue (crawler s) then
        match iteration s with
        | (Val _, s') | (Continue, s') => while_loop fuel' s'
        | (Break, s') => (Finished, s')
        | (Raise e, s') => (Uncaught e, s')
        end
      else (Finished, s)
  end.

(** The cycle of one URL up to the point where it is known to be cached
    (lines 218-312): the part of [body] before [date_probe], with what it
    hands over. *)
Definition up_to_date_probe : M (string * Response * string) :=
  let* url := select_url in
  let* response := fetch1 url in
  let* url := register url response in
  let* cache_status := cache_gate url response in
  ret (url, response, cache_status).

End Loop.

Arguments state C W : clear implicits.
Arguments M C W A : clear implicits.

(** ** Observations on a trace *)

(** Did this call tell of a cache: a classification other than ['-']. *)
Definition signals_cache (e : event) : bool :=
  match e with
  | EvClassify _ verdict => negb (String.eqb verdict "-")
  | _ => false
  end.

Definition is_get (e : event) : bool :=
  match e with EvGet _ => true | _ => false end.

Definition is_cache_bust (e : event) : bool :=
  match e with EvCacheBust _ _ _ _ => true | _ => false end.

Definition is_add_to_visited (e : event) : bool :=
  match e with EvAddToVisited _ => true | _ => false end.

(** "A GET is only issued for a URL that is in the visited set": replay the
    trace from the visited set [visited], adding what [add_to_visited] is
    called with, and look every requested URL up. *)
Fixpoint gets_follow_visits (visited : list string) (tr : list event) : bool :=
  match tr with
  | [] => true
  | EvGet r :: tr' =>
      in_list (req_url r) visited && gets_follow_visits visited tr'
  | EvAddToVisited url :: tr' => gets_follow_visits (url :: visited) tr'
  | _ :: tr' => gets_follow_visits visited tr'
  end.

(** The messages written to the log, in order. *)
Definition messages (tr : list event) : list string :=
  flat_map (fun e => match e with EvLog _ msg => [msg] | _ => [] end) tr.

(** The requests and the waits, in order. *)
Definition timeline (tr : list event) : list event :=
  List.filter
    (fun e => match e with EvGet _ | EvSleep _ => true | _ => false end) tr.

(** "The entry holds a boolean outcome set to [b]". *)
Definition has_bool_outcome (entry : gmap string pyval) (b : bool) : Prop :=
  exists key, entry !! key = Some (VBool b).

(** *** The states at the stage boundaries *)

(** The state [select_url] hands the URL [url] over in, [c] being the
    crawler once the URL is taken from the queue. *)
Definition selected {C W} (s : state C W) (url : string) (c : C) : state C W :=
  add_event (EvLog INFO ("Visiting URL: " +:+ url))
    (set_vars (mkLocals (Some url) (l_response2 (vars s))
                        (l_cache_status2 (vars s)))
       (set_crawler c s)).

(** The entry line 317 writes for a URL that gets cached. *)
Definition fresh_entry : gmap string pyval :=
  {[ "cache_status" := VStr "HIT"; "date" := VList [] ]}.

(** The state after lines 314-340, [d] being [network[url]] before. *)
Definition opened {C W} (s : state C W) (url : string) (response : Response)
    (d : gmap string exchange) : state C W :=
  set_network (<[url := <["first" := exchange_of response]> d]> (network s))
    (set_URLs (<[url := fresh_entry]> (URLs (statistics s)))
       (add_event (EvLog INFO ("Testing the Date header on " +:+ url)) s)).

(** A call that belongs to the cache-busting probe: the construction of
    the busted request, or a request sent with [allow_redirects=False]. *)
Definition busting (e : event) : bool :=
  match e with
  | EvCacheBust _ _ _ _ => true
  | EvGet r => bool_decide (req_allow_redirects r = Some false)
  | _ => false
  end.

(** *** Relations between the state before and after a statement *)

(** The statement leaves [R] between the state it starts in and the state
    it ends in, however it ends. *)
Definition preserves {C W A} (R : state C W -> state C W -> Prop)
    (c : M C W A) : Prop :=
  forall s, R s (c s).2.

(** The trace only grows. *)
Definition extends {C W} (s s' : state C W) : Prop :=
  exists evs, trace s' = (trace s ++ evs)%list.

(** The entries of [statistics['URLs']] are the same. *)
Definition same_URLs {C W} (s s' : state C W) : Prop :=
  URLs (statistics s') = URLs (statistics s).

(** The flag [cache_headers] after is the flag before, or-ed with "one of
    the classifications made in between returned something else than
    ['-']". *)
Definition flag_follows {C W} (s s' : state C W) : Prop :=
  exists evs,
    trace s' = (trace s ++ evs)%list
    /\ cache_headers (statistics s')
       = cache_headers (statistics s) || existsb signals_cache evs.

(** No call of the cache-busting probe was made in between. *)
Definition unbusted {C W} (s s' : state C W) : Prop :=
  exists evs, trace s' = (trace s ++ evs)%list /\ existsb busting evs = false.

(** The events of [s'] that [s] does not have yet. *)
Definition new_events {C W} (s s' : state C W) : list event :=
  drop (length (trace s)) (trace s').

End DateHeader.

(** ** Collaborators for concrete runs *)

Module Fixture.
Import PyStr DateHeader.

(** The network of a concrete run: the answers [browser.get] gives, in the
    order of the calls; a call past the end of the script fails to
    connect. *)
Definition script : Type := list (Response + exception).

Definition refused : exception :=
  mkException ConnectionError "ConnectionError" "connection refused" "Traceback".

(** Modelled from the spec: [CacheBuster.cache_bust_request] (module
    [cache_buster] is not among the sources) in the one respect the runs
    below need: the busted URL carries a new query parameter and the headers
    and cookies handed in are returned as they are. *)
Definition bust (url : string) (hs cs : dict) (vary : string)
  : string * dict * dict :=
  (url +:+ "?cachebuster=1", hs, cs).

#[export] Instance script_world : World script := {|
  browser_get w r :=
    match w with
    | answer :: w' => (answer, w')
    | [] => (inr refused, [])
    end;
  cache_bust_request w url hs cs vary := (bust url hs cs vary, w)
|}.

(** Modelled from the spec: the [Crawler] class (module [crawler] is not
    among the sources), section 4.4: a first-in-first-out queue and the
    visited URLs as exact strings. Markup is not parsed ([get_links] finds
    no link) and the two limits of [add_to_queue] are left out: the runs
    below are started with [--url], where the loop calls neither. *)
Record queue_crawler := mkCrawler {
  queue : list string;
  visited_urls : list string
}.

#[export] Instance queue_crawler_ops : Crawler queue_crawler := {|
  should_continue c := negb (bool_decide (queue c = []));
  get_url_from_queue c :=
    match queue c with
    | [] => (None, c)
    | url :: rest => (Some url, mkCrawler rest (visited_urls c))
    end;
  is_visited c url := in_list url (visited_urls c);
  EXCLUDED_EXTENSIONS c := [".jpg"; ".png"; ".css"; ".woff"];
  get_links c base html := [];
  add_to_queue c url :=
    if in_list url (visited_urls c) || in_list url (queue c) then c
    else mkCrawler (queue c ++ [url]) (visited_urls c);
  add_to_visited c url :=
    if in_list url (visited_urls c) then c
    else mkCrawler (queue c) (visited_urls c ++ [url])
|}.

(** Modelled from the spec: [WCDE.cache_headers_heuristics] (module [wcde]
    is not among the sources), section 4.2: a status header that says HIT or
    MISS decides; without one, an [Age] above zero is a HIT and an [Age] of
    zero a MISS; without any of these the verdict is ['-']. *)
Definition heuristics (h : dict) : string :=
  match ci_getitem "X-Cache" h with
  | Some v =>
      if contains "hit" (lower v) then "HIT"
      else if contains "miss" (lower v) then "MISS"
      else "-"
  | None =>
      match ci_getitem "Age" h with
      | Some v => if String.eqb v "0" then "MISS" else "HIT"
      | None => "-"
      end
  end.

(** [urlparse(url).path] for the URLs of the runs below, which have the
    shape [scheme://host/path]: what follows the third slash, with it. *)
Fixpoint path_from (slashes : nat) (url : string) : string :=
  match url with
  | EmptyString => EmptyString
  | String c rest =>
      if Ascii.eqb c "/"%char then
        match slashes with
        | O => url
        | S n => path_from n rest
        end
      else path_from slashes rest
  end.

(** A run started as [date_header.py --url <url>]: no exclusion, no
    cookies. *)
Definition settings (url : string) : Settings :=
  mkSettings (Some url) "" [] (fun _ _ => false) (path_from 2) heuristics
             (fun _ => "Traceback").

(** The state the loop starts in: the URLs of [urls] queued, nothing
    visited, the statistics of lines 170-173, [network] empty, no local
    bound. *)
Definition start (host : string) (urls : list string) (net : script)
  : state queue_crawler script :=
  mkState net (mkCrawler urls []) (init_statistics host) ∅
          (mkLocals None None None) [].

Definition response (url : string) (hs : dict) : Response :=
  mkResponse url 200 hs "<html></html>" headers.

Definition u : string := "https://example.org/account".

(** Scenario C: a cached page whose Date stays the same on the second look
    and differs on the cache-busted request. *)
Definition run_C : script :=
  [ inl (response u [("X-Cache", "HIT"); ("Date", "D1")]);
    inl (response u [("X-Cache", "HIT"); ("Date", "D1")]);
    inl (response (u +:+ "?cachebuster=1") [("X-Cache", "MISS"); ("Date", "D2")]) ].

(** A MISS confirmed as a HIT: the first response and the confirmation
    carry different Dates. *)
Definition run_miss_then_hit : script :=
  [ inl (response u [("X-Cache", "MISS"); ("Date", "D0")]);
    inl (response u [("X-Cache", "MISS"); ("Date", "D1")]);
    inl (response u [("X-Cache", "HIT"); ("Date", "D1")]);
    inl (response u [("X-Cache", "HIT"); ("Date", "D1")]);
    inl (response (u +:+ "?cachebuster=1") [("X-Cache", "MISS"); ("Date", "D2")]) ].

(** A MISS confirmed as a HIT where only the confirmation carries a
    Date. *)
Definition run_miss_without_date : script :=
  [ inl (response u [("X-Cache", "MISS")]);
    inl (response u [("X-Cache", "HIT"); ("Date", "D1")]);
    inl (response u [("X-Cache", "HIT"); ("Date", "D1")]);
    inl (response u [("X-Cache", "HIT"); ("Date", "D1")]) ].

(** A HIT without a Date header. *)
Definition run_hit_without_date : script :=
  [ inl (response u [("X-Cache", "HIT")]) ].

(** A HIT whose second look comes back without a Date header. *)
Definition run_second_without_date : script :=
  [ inl (response u [("X-Cache", "HIT"); ("Date", "D1")]);
    inl (response u [("X-Cache", "HIT")]) ].

(** The first request times out. *)
Definition timed_out : exception :=
  mkException ReadTimeout "ReadTimeout" "Read timed out. (read timeout=30)"
              "Traceback (most recent call last): ...".

Definition run_timeout : script := [ inr timed_out ].

(** No header tells of a cache. *)
Definition run_unknown : script :=
  [ inl (response u [("Content-Type", "text/html")]) ].

(** The first URL times out, the second one is a cached page without
    Date. *)
Definition u2 : string := "https://example.org/profile".

Definition run_timeout_then_hit : script :=
  [ inr timed_out; inl (response u2 [("X-Cache", "HIT")]) ].

(** The runs: [date_header.py --url https://example.org/account] against
    each of the scripts. *)
Definition cfg : Settings := settings u.

Definition s_C := start "example.org" [u] run_C.
Definition s_miss_then_hit := start "example.org" [u] run_miss_then_hit.
Definition s_miss_without_date := start "example.org" [u] run_miss_without_date.
Definition s_hit_without_date := start "example.org" [u] run_hit_without_date.
Definition s_second_without_date :=
  start "example.org" [u] run_second_without_date.
Definition s_timeout := start "example.org" [u; u2] run_timeout_then_hit.
Definition s_unknown := start "example.org" [u] run_unknown.

(** The first request is interrupted from the keyboard. *)
Definition interrupted : exception :=
  mkException KeyboardInterrupt "KeyboardInterrupt" ""
              "Traceback (most recent call last): ...".

Definition run_interrupted : script := [ inr interrupted ].

(** The first request raises an exception that is none of the six
    transport errors. *)
Definition invalid_url : exception :=
  mkException OtherException "InvalidURL" "Invalid URL: No host supplied"
              "Traceback (most recent call last): ...".

Definition run_invalid_url : script :=
  [ inr invalid_url; inl (response u2 [("X-Cache", "HIT")]) ].

(** A MISS that the two confirmation requests do not turn into a HIT. *)
Definition run_miss_stays : script :=
  [ inl (response u [("X-Cache", "MISS"); ("Date", "D0")]);
    inl (response u [("X-Cache", "MISS"); ("Date", "D1")]);
    inl (response u [("X-Cache", "MISS"); ("Date", "D2")]) ].

(** A HIT whose second look times out. *)
Definition run_second_timeout : script :=
  [ inl (response u [("X-Cache", "HIT"); ("Date", "D1")]);
    inr timed_out;
    inl (response u2 [("X-Cache", "HIT")]) ].

(** A HIT whose cache-busted response carries no Date header. *)
Definition run_busted_without_date : script :=
  [ inl (response u [("X-Cache", "HIT"); ("Date", "D1")]);
    inl (response u [("X-Cache", "HIT"); ("Date", "D1")]);
    inl (response (u +:+ "?cachebuster=1") [("X-Cache", "MISS")]) ].

Definition s_interrupted := start "example.org" [u; u2] run_interrupted.
Definition s_invalid_url := start "example.org" [u; u2] run_invalid_url.
Definition s_miss_stays := start "example.org" [u] run_miss_stays.
Definition s_second_timeout := start "example.org" [u; u2] run_second_timeout.
Definition s_busted_without_date :=
  start "example.org" [u] run_busted_without_date.

(** A picture queued before the page, and an empty queue. *)
Definition u_picture : string := "https://example.org/logo.png".

Definition s_picture := start "example.org" [u_picture; u] run_hit_without_date.
Definition s_empty := start "example.org" [] run_hit_without_date.

End Fixture.

(** ** More relations between the state before and after a statement *)

Module LoopRelations.
Import DateHeader.

(** The line that opens the entry of a URL announces it. *)
Definition announces (url : string) : event :=
  EvLog INFO ("Testing the Date header on " +:+ url).

(** No entry but the one of [url] is touched. *)
Definition only_entry {C W} (url : string) (s s' : state C W) : Prop :=
  forall k, k <> url ->
    URLs (statistics s') !! k = URLs (statistics s) !! k.

(** An entry is touched only when it was announced in between. *)
Definition writes_announced {C W} (s s' : state C W) : Prop :=
  exists evs,
    trace s' = trace s ++ evs
    /\ forall k, announces k ∉ evs ->
         URLs (statistics s') !! k = URLs (statistics s) !! k.

(** [network[k]] is touched only when [add_to_visited(k)] was called in
    between. *)
Definition traces_visited {C W} (s s' : state C W) : Prop :=
  exists evs,
    trace s' = trace s ++ evs
    /\ forall k, EvAddToVisited k ∉ evs -> network s' !! k = network s !! k.

(** [network] is left alone. *)
Definition same_network {C W} (s s' : state C W) : Prop :=
  network s' = network s.

(** No part of [network] but the one of [url] is touched. *)
Definition only_network {C W} (url : string) (s s' : state C W) : Prop :=
  forall k, k <> url -> network s' !! k = network s !! k.

(** No call of [add_to_queue] was made in between. *)
Definition queues_nothing {C W} (s s' : state C W) : Prop :=
  exists evs,
    trace s' = trace s ++ evs /\ forall link, EvAddToQueue link ∉ evs.

(** The list under ['errors'], empty when the key is not there. *)
Definition error_list (st : Statistics) : list error_record :=
  default [] (errors st).

(** [site] and [tested] are left alone and the errors are only added to. *)
Definition keeps_record {C W} (s s' : state C W) : Prop :=
  site (statistics s') = site (statistics s)
  /\ tested (statistics s') = tested (statistics s)
  /\ exists new,
       error_list (statistics s') = error_list (statistics s) ++ new.

(** [network[url]] holds the exchange [x] under ['request1'] and under
    ['first'], and nothing under ['response2']. *)
Definition first_is_request1 {C W} (url : string) (x : exchange)
    (s : state C W) : Prop :=
  exists d,
    network s !! url = Some d
    /\ d !! "request1" = Some x
    /\ d !! "first" = Some x
    /\ d !! "response2" = None.

(** A statement that keeps [P] once it holds. *)
Definition keeps {C W} (P : state C W -> Prop) (s s' : state C W) : Prop :=
  P s -> P s'.

End LoopRelations.

(** * Properties *)

(** ** Python strings *)

Module PyStrFacts.
Import PyStr.

Lemma startswith_spec (p s : string) :
  startswith p s = true <-> exists post, s = p +:+ post.
Proof.
  revert s. induction p as [|a p IH]; intros s; simpl.
  - split; [intros _; by exists s | done].
  - destruct s as [|b s].
    + split; [done | intros [post Hpost]; discriminate].
    + destruct (Ascii.eqb_spec a b) as [->|Hab].
      * rewrite IH. split; intros [post Hpost]; exists post.
        -- by rewrite Hpost.
        -- by injection Hpost.
      * split; [done | intros [post Hpost]; injection Hpost; congruence].
Qed.

Lemma contains_spec (sub s : string) :
  contains sub s = true <-> occurs sub s.
Proof.
  induction s as [|c s IH]; simpl.
  - rewrite orb_false_r, startswith_spec. split.
    + intros [post Hpost]. by exists EmptyString, post.
    + intros [[|c pre] [post Hpost]]; [by exists post | discriminate].
  - rewrite orb_true_iff, startswith_spec, IH. split.
    + intros [[post Hpost] | (pre & post & Hs)].
      * by exists EmptyString, post.
      * exists (String c pre), post. simpl. by rewrite Hs.
    + intros [[|c' pre] [post Hs]]; simpl in Hs.
      * left. by exists post.
      * right. exists pre, post. by injection Hs.
Qed.

Lemma in_list_spec (x : string) (l : list string) :
  in_list x l = true <-> x ∈ l.
Proof.
  unfold in_list. rewrite existsb_exists, list_elem_of_In. split.
  - intros (y & Hy & Heq). apply String.eqb_eq in Heq. by subst.
  - intros Hx. exists x. split; [done | apply String.eqb_refl].
Qed.

Lemma in_list_false (x : string) (l : list string) :
  in_list x l = false <-> x ∉ l.
Proof.
  rewrite <- in_list_spec. destruct (in_list x l); split; congruence.
Qed.

End PyStrFacts.

(** ** The provider fingerprint *)

Module CacheIdentificationFacts.
Import PyStr PyStrFacts CacheIdentification.

(** [identify] returns the members of [providers], each once. *)
Lemma elem_of_identify (P : string) (hs : list (string * string)) :
  P ∈ identify hs <-> P ∈ providers hs.
Proof. unfold identify. by rewrite elem_of_elements, elem_of_list_to_set. Qed.

Lemma identify_NoDup (hs : list (string * string)) : NoDup (identify hs).
Proof. unfold identify. apply NoDup_elements. Qed.

Lemma elem_of_providers (P : string) (hs : list (string * string)) :
  P ∈ providers hs <-> exists h, h ∈ hs /\ P ∈ header_appends h.
Proof.
  unfold providers. rewrite list_elem_of_In, in_flat_map.
  by setoid_rewrite list_elem_of_In.
Qed.

Lemma any_keyword_in_spec (kws : list string) (s : string) :
  any_keyword_in kws s = true <->
  exists keyword, keyword ∈ kws /\ occurs_ci keyword s.
Proof.
  unfold any_keyword_in, occurs_ci. rewrite existsb_exists.
  setoid_rewrite contains_spec. by setoid_rewrite list_elem_of_In.
Qed.

Lemma elem_of_provider_appends (P name value : string) (pk : string * keywords) :
  P ∈ provider_appends name value pk <->
  P = pk.1 /\ (any_keyword_in (kw_name pk.2) name = true
               \/ any_keyword_in (kw_value pk.2) value = true).
Proof.
  unfold provider_appends. rewrite elem_of_app.
  destruct (any_keyword_in (kw_name pk.2) name),
           (any_keyword_in (kw_value pk.2) value);
    rewrite ?list_elem_of_singleton, ?elem_of_nil; intuition congruence.
Qed.

(** What one header that passes the two denylist tests appends. *)
Lemma elem_of_header_appends (P name value : string) :
  P ∈ header_appends (name, value) <->
  (name ∉ DENYLIST_name) /\
  exists kws, (P, kws) ∈ KEYWORDS
    /\ (any_keyword_in (kw_name kws) name = true
        \/ any_keyword_in (kw_value kws) value = true).
Proof.
  unfold header_appends.
  destruct (in_list name DENYLIST_name) eqn:Hdeny.
  - apply in_list_spec in Hdeny. rewrite elem_of_nil. tauto.
  - apply in_list_false in Hdeny. change (in_list value DENYLIST_value) with false.
    cbv iota. rewrite list_elem_of_In, in_flat_map. split.
    + intros ([P' kws] & Hin & HP). apply list_elem_of_In in Hin, HP.
      apply elem_of_provider_appends in HP as [-> Hany].
      split; [done | by exists kws].
    + intros (_ & kws & Hin & Hany). exists (P, kws).
      rewrite <- !list_elem_of_In. split; [done |].
      by apply elem_of_provider_appends.
Qed.

(** A header whose name is in the denylist as it is spelled appends
    nothing. *)
Lemma header_appends_denylisted (name value : string) :
  name ∈ DENYLIST_name -> header_appends (name, value) = [].
Proof.
  intros Hin. apply in_list_spec in Hin. unfold header_appends. by rewrite Hin.
Qed.

(** Such a header can be dropped from the collection. *)
Lemma providers_denylisted (hs1 hs2 : list (string * string)) (name value : string) :
  name ∈ DENYLIST_name ->
  providers (hs1 ++ (name, value) :: hs2) = providers (hs1 ++ hs2).
Proof.
  intros Hin. unfold providers. rewrite !flat_map_app. f_equal.
  change ((header_appends (name, value) ++ flat_map header_appends hs2)%list
          = flat_map header_appends hs2).
  by rewrite (header_appends_denylisted _ _ Hin).
Qed.

(** The names of the denylist are in lower case, so a name that is not in
    it up to case is not in it as spelled. *)
Lemma denylist_lower (name : string) :
  name ∈ DENYLIST_name -> lower name = name.
Proof.
  unfold DENYLIST_name. rewrite !elem_of_cons, elem_of_nil.
  intros [-> | [-> | [-> | []]]]; reflexivity.
Qed.

Lemma not_denylisted_up_to_case (name : string) :
  lower name ∉ DENYLIST_name -> name ∉ DENYLIST_name.
Proof.
  intros Hci Hin. apply Hci. by rewrite (denylist_lower _ Hin).
Qed.

(** C3, at the input where it fails. The header
    [Access-Control-Allow-Origin: https://cloudflare-proxy.example] has a
    name that is on the denylist when names are compared without regard to
    case, yet [identify] compares the name as it is spelled (line 148),
    does not skip the header and returns [cloudflare] on account of its
    value; without the header nothing is returned. *)
Theorem C3_denylist_compares_spelling :
  lower "Access-Control-Allow-Origin" ∈ DENYLIST_name
  /\ identify [("Access-Control-Allow-Origin", "https://cloudflare-proxy.example")]
     = ["cloudflare"]
  /\ identify [] = []
  /\ identify [("access-control-allow-origin", "https://cloudflare-proxy.example")]
     = [].
Proof.
  split; [| by vm_compute].
  apply in_list_spec. reflexivity.
Qed.

(** C4: in every header collection, a header whose name is not in the
    denylist and a provider [P] of the keyword table such that one of the
    provider's name keywords occurs in the header's name, or one of its
    value keywords in the header's value, both without regard to case, make
    [P] a member of the list [identify] returns. *)
Theorem C4_matching_provider_identified
    (hs : list (string * string)) (name value P : string) (kws : keywords) :
  (name, value) ∈ hs ->
  name ∉ DENYLIST_name ->
  (P, kws) ∈ KEYWORDS ->
  (exists keyword, keyword ∈ kw_name kws /\ occurs_ci keyword name)
  \/ (exists keyword, keyword ∈ kw_value kws /\ occurs_ci keyword value) ->
  P ∈ identify hs.
Proof.
  intros Hh Hdeny HP Hocc.
  apply elem_of_identify, elem_of_providers. exists (name, value).
  split; [done |]. apply elem_of_header_appends. split; [done |].
  exists kws. split; [done |]. by rewrite !any_keyword_in_spec.
Qed.

(** C4 at the response of scenario A. *)
Lemma C4_witness :
  "cloudflare" ∈ identify [("cf-cache-status", "HIT");
                           ("date", "Mon, 01 Jan 2024 00:00:00 GMT")].
Proof.
  apply (C4_matching_provider_identified _ "cf-cache-status" "HIT" "cloudflare"
           {| kw_name := ["cf-cache-status"; "cf-ray"; "cf-request-id"];
              kw_value := ["cloudflare"] |}).
  - apply list_elem_of_here.
  - apply in_list_false. reflexivity.
  - apply list_elem_of_In. vm_compute. tauto.
  - left. exists "cf-cache-status". split; [apply list_elem_of_here |].
    exists "", "". reflexivity.
Defined.

(** ** More on the provider fingerprint *)

Lemma lower_char_idempotent (c : ascii) :
  lower_char (lower_char c) = lower_char c.
Proof.
  destruct c as [[] [] [] [] [] [] [] []]; reflexivity.
Qed.

Lemma lower_idempotent (s : string) : lower (lower s) = lower s.
Proof.
  induction s as [|c s IH]; simpl; [done |].
  by rewrite lower_char_idempotent, IH.
Qed.

(** No value keyword of the table occurs in the empty string. *)
Lemma no_value_keyword_in_empty (P : string) (kws : keywords) :
  (P, kws) ∈ KEYWORDS -> any_keyword_in (kw_value kws) "" = false.
Proof.
  intros Hin. apply list_elem_of_In in Hin.
  assert (forallb (fun pk => negb (any_keyword_in (kw_value pk.2) "")) KEYWORDS
          = true) as Hall by (vm_compute; reflexivity).
  rewrite forallb_forall in Hall. specialize (Hall _ Hin).
  by apply negb_true_iff in Hall.
Qed.

Lemma providers_singleton (h : string * string) :
  providers [h] = header_appends h.
Proof. unfold providers. cbn [flat_map]. apply app_nil_r. Qed.

Lemma elem_of_identify_inv (hs : list (string * string)) (P : string) :
  P ∈ identify hs ->
  exists name value kws,
    (name, value) ∈ hs
    /\ (name ∉ DENYLIST_name)
    /\ (P, kws) ∈ KEYWORDS
    /\ (any_keyword_in (kw_name kws) name = true
        \/ any_keyword_in (kw_value kws) value = true).
Proof.
  rewrite elem_of_identify, elem_of_providers.
  intros ([name value] & Hin & Happ).
  apply elem_of_header_appends in Happ as (Hdeny & kws & Hkws & Hany).
  by exists name, value, kws.
Qed.

Lemma elem_of_identify_app (hs1 hs2 : list (string * string)) (P : string) :
  P ∈ identify (hs1 ++ hs2) <-> P ∈ identify hs1 \/ P ∈ identify hs2.
Proof.
  rewrite !elem_of_identify. unfold providers.
  by rewrite flat_map_app, elem_of_app.
Qed.

(** Every provider [identify] returns is there for a reason: some header
    of the collection, whose name is not in the denylist as it is spelled,
    carries one of the provider's name keywords in its name or one of its
    value keywords in its value, case ignored. *)
Theorem identify_sound (hs : list (string * string)) (P : string) :
  P ∈ identify hs ->
  exists name value kws,
    (name, value) ∈ hs
    /\ (name ∉ DENYLIST_name)
    /\ (P, kws) ∈ KEYWORDS
    /\ ((exists keyword, keyword ∈ kw_name kws /\ occurs_ci keyword name)
        \/ (exists keyword, keyword ∈ kw_value kws /\ occurs_ci keyword value)).
Proof.
  intros (name & value & kws & Hin & Hdeny & Hkws & Hany)%elem_of_identify_inv.
  exists name, value, kws. rewrite !any_keyword_in_spec in Hany. eauto.
Qed.

Lemma identify_sound_witness :
  exists name value kws,
    (name, value) ∈ [("Server", "nginx/1.18.0")]
    /\ (name ∉ DENYLIST_name)
    /\ ("nginx", kws) ∈ KEYWORDS
    /\ ((exists keyword, keyword ∈ kw_name kws /\ occurs_ci keyword name)
        \/ (exists keyword, keyword ∈ kw_value kws /\ occurs_ci keyword value)).
Proof.
  apply (identify_sound [("Server", "nginx/1.18.0")] "nginx").
  vm_compute. apply list_elem_of_here.
Defined.

(** The list [identify] returns has no duplicates and holds names of the
    keyword table only. *)
Theorem identify_range (hs : list (string * string)) :
  NoDup (identify hs) /\ Forall (fun P => P ∈ KEYWORDS.*1) (identify hs).
Proof.
  split; [apply identify_NoDup |]. apply Forall_forall. intros P HP.
  apply elem_of_identify_inv in HP as (_ & _ & kws & _ & _ & Hkws & _).
  apply list_elem_of_fmap. by exists (P, kws).
Qed.

(** Every header contributes on its own: the providers of two collections
    put together are those of the one or of the other. *)
Theorem identify_app (hs1 hs2 : list (string * string)) (P : string) :
  P ∈ identify (hs1 ++ hs2) <-> P ∈ identify hs1 \/ P ∈ identify hs2.
Proof. apply elem_of_identify_app. Qed.

(** A header whose name is in the denylist as it is spelled changes
    nothing, whatever its value, wherever it stands in the collection. *)
Theorem identify_skips_denylisted
    (hs1 hs2 : list (string * string)) (name value P : string) :
  name ∈ DENYLIST_name ->
  P ∈ identify (hs1 ++ (name, value) :: hs2) <-> P ∈ identify (hs1 ++ hs2).
Proof.
  intros Hin. rewrite !elem_of_identify.
  by rewrite (providers_denylisted _ _ _ _ Hin).
Qed.

Lemma identify_skips_denylisted_witness :
  "cloudflare" ∈ identify ([("Server", "nginx")]
                           ++ ("content-security-policy",
                               "default-src https://cdnjs.cloudflare.com")
                           :: [])
  <-> "cloudflare" ∈ identify ([("Server", "nginx")] ++ []).
Proof.
  apply identify_skips_denylisted. apply in_list_spec. reflexivity.
Defined.

(** The two keyword tests ignore case: a header may be replaced by one
    whose name and value differ from its own in case only, as long as the
    denylist test, which looks at the spelling, comes out the same. *)
Theorem identify_ignores_case
    (hs1 hs2 : list (string * string)) (name value name' value' P : string) :
  lower name = lower name' ->
  lower value = lower value' ->
  (name ∈ DENYLIST_name <-> name' ∈ DENYLIST_name) ->
  P ∈ identify (hs1 ++ (name, value) :: hs2)
  <-> P ∈ identify (hs1 ++ (name', value') :: hs2).
Proof.
  intros Hn Hv Hdeny.
  assert (forall Q, Q ∈ header_appends (name, value)
                    <-> Q ∈ header_appends (name', value')) as Hsame.
  { intros Q. rewrite !elem_of_header_appends.
    unfold any_keyword_in. rewrite Hn, Hv. by rewrite Hdeny. }
  change ((name, value) :: hs2) with ([(name, value)] ++ hs2).
  change ((name', value') :: hs2) with ([(name', value')] ++ hs2).
  rewrite !elem_of_identify_app.
  assert (P ∈ identify [(name, value)] <-> P ∈ identify [(name', value')])
    as ->; [| done].
  rewrite !elem_of_identify, !providers_singleton. apply Hsame.
Qed.

Lemma identify_ignores_case_witness :
  "varnish" ∈ identify ([] ++ ("X-VARNISH", "123") :: [])
  <-> "varnish" ∈ identify ([] ++ ("x-varnish", "123") :: []).
Proof.
  apply identify_ignores_case; [reflexivity | reflexivity |].
  rewrite <- !in_list_spec. vm_compute. split; intros H; exact H.
Defined.

(** A header with an empty value counts through its name alone: no value
    keyword occurs in the empty string. *)
Theorem identify_empty_value
    (hs1 hs2 : list (string * string)) (name P : string) :
  P ∈ identify (hs1 ++ (name, "") :: hs2) <->
  P ∈ identify (hs1 ++ hs2)
  \/ ((name ∉ DENYLIST_name)
      /\ exists kws keyword,
           (P, kws) ∈ KEYWORDS /\ keyword ∈ kw_name kws
           /\ occurs_ci keyword name).
Proof.
  change ((name, "") :: hs2) with ([(name, "")] ++ hs2).
  rewrite !elem_of_identify_app.
  assert (P ∈ identify [(name, "")] <->
          (name ∉ DENYLIST_name)
          /\ exists kws keyword,
               (P, kws) ∈ KEYWORDS /\ keyword ∈ kw_name kws
               /\ occurs_ci keyword name) as ->.
  { rewrite elem_of_identify, providers_singleton, elem_of_header_appends.
    split.
    - intros (Hdeny & kws & Hkws & [Hname | Hvalue]).
      + apply any_keyword_in_spec in Hname as (k & Hk & Hocc). eauto 8.
      + by rewrite (no_value_keyword_in_empty _ _ Hkws) in Hvalue.
    - intros (Hdeny & kws & k & Hkws & Hk & Hocc). split; [done |].
      exists kws. split; [done |]. left. apply any_keyword_in_spec. eauto. }
  tauto.
Qed.

End CacheIdentificationFacts.

(** ** The probe loop *)

Module DateHeaderFacts.
Import PyStr PyStrFacts CacheIdentification DateHeader LoopRelations.

Section LoopFacts.

Context {C W : Type} `{!Crawler C} `{!World W}.
Variable cfg : Settings.

Implicit Types s : state C W.

(** *** Sequencing *)

Lemma bind_Val {A B} (c : M C W A) (k : A -> M C W B) s a s' :
  c s = (Val a, s') -> bind c k s = k a s'.
Proof. unfold bind. by intros ->. Qed.

Lemma bind_Continue {A B} (c : M C W A) (k : A -> M C W B) s s' :
  c s = (Continue, s') -> bind c k s = (Continue, s').
Proof. unfold bind. by intros ->. Qed.

Lemma bind_Break {A B} (c : M C W A) (k : A -> M C W B) s s' :
  c s = (Break, s') -> bind c k s = (Break, s').
Proof. unfold bind. by intros ->. Qed.

Lemma bind_Raise {A B} (c : M C W A) (k : A -> M C W B) s e s' :
  c s = (Raise e, s') -> bind c k s = (Raise e, s').
Proof. unfold bind. by intros ->. Qed.

(** A statement followed by another ends where the first ends, or where
    the second ends when run from there. *)
Lemma bind_cases {A B} (c : M C W A) (k : A -> M C W B) s :
  (exists a, (c s).1 = Val a /\ bind c k s = k a (c s).2)
  \/ ((forall a, (c s).1 <> Val a) /\ (bind c k s).2 = (c s).2).
Proof.
  unfold bind. destruct (c s) as [[a| | |e] s']; simpl; eauto.
Qed.

Section Preservation.

Variable R : state C W -> state C W -> Prop.
Context `{!Reflexive R} `{!Transitive R}.

Lemma preserves_ret {A} (a : A) : preserves R (ret (C:=C) (W:=W) a).
Proof. intros s. simpl. reflexivity. Qed.

Lemma preserves_continue {A} : preserves R (continue_ (C:=C) (W:=W) (A:=A)).
Proof. intros s. simpl. reflexivity. Qed.

Lemma preserves_break {A} : preserves R (break_ (C:=C) (W:=W) (A:=A)).
Proof. intros s. simpl. reflexivity. Qed.

Lemma preserves_raise {A} e : preserves R (raise (C:=C) (W:=W) (A:=A) e).
Proof. intros s. simpl. reflexivity. Qed.

Lemma preserves_bind {A B} (c : M C W A) (k : A -> M C W B) :
  preserves R c -> (forall a, preserves R (k a)) -> preserves R (bind c k).
Proof.
  intros Hc Hk s. specialize (Hc s). unfold bind.
  destruct (c s) as [[a| | |e] s']; simpl in *; [| done..].
  etransitivity; [exact Hc | apply Hk].
Qed.

Lemma preserves_try_except {A} (c : M C W A) caught handler :
  preserves R c -> (forall e, preserves R (handler e)) ->
  preserves R (try_except c caught handler).
Proof.
  intros Hc Hh s. specialize (Hc s). unfold try_except.
  destruct (c s) as [[a| | |e] s']; simpl in *; [done.. |].
  destruct (caught e); [| done].
  etransitivity; [exact Hc | apply Hh].
Qed.

Lemma preserves_if {A} (b : bool) (c1 c2 : M C W A) :
  preserves R c1 -> preserves R c2 -> preserves R (if b then c1 else c2).
Proof. by destruct b. Qed.

Lemma preserves_for_each {A} (l : list A) (f : A -> M C W unit) :
  (forall x, preserves R (f x)) -> preserves R (for_each l f).
Proof.
  intros Hf. induction l as [|x l IH]; simpl.
  - apply preserves_ret.
  - apply preserves_bind; [apply Hf | intros _; apply IH].
Qed.

(** A statement that only changes the state, the same way wherever it
    starts. *)
Lemma preserves_step {A} (c : M C W A) :
  (forall s, R s (c s).2) -> preserves R c.
Proof. done. Qed.

End Preservation.

(** *** The three relations are preorders *)

#[local] Instance extends_refl : Reflexive (extends (C:=C) (W:=W)).
Proof. intros s. exists []. by rewrite app_nil_r. Qed.

#[local] Instance extends_trans : Transitive (extends (C:=C) (W:=W)).
Proof.
  intros s1 s2 s3 [e1 H1] [e2 H2]. exists (e1 ++ e2).
  by rewrite H2, H1, app_assoc.
Qed.

#[local] Instance same_URLs_refl : Reflexive (same_URLs (C:=C) (W:=W)).
Proof. by intros s. Qed.

#[local] Instance same_URLs_trans : Transitive (same_URLs (C:=C) (W:=W)).
Proof. unfold same_URLs. intros s1 s2 s3 H1 H2. by rewrite H2. Qed.

#[local] Instance flag_follows_refl : Reflexive (flag_follows (C:=C) (W:=W)).
Proof. intros s. exists []. simpl. by rewrite app_nil_r, orb_false_r. Qed.

#[local] Instance flag_follows_trans : Transitive (flag_follows (C:=C) (W:=W)).
Proof.
  intros s1 s2 s3 (e1 & Ht1 & Hf1) (e2 & Ht2 & Hf2). exists (e1 ++ e2).
  split.
  - by rewrite Ht2, Ht1, app_assoc.
  - by rewrite Hf2, Hf1, existsb_app, orb_assoc.
Qed.

Lemma flag_follows_extends s s' : flag_follows s s' -> extends s s'.
Proof. intros (evs & Ht & _). by exists evs. Qed.

(** *** Walking through a statement *)

(** The statements that touch the state in one step. *)
Ltac unfold_steps :=
  unfold emit, logger_info, logger_error, time_sleep, get, cache_bust,
    crawler_get_url_from_queue, crawler_is_visited, crawler_excluded_extensions,
    crawler_get_links, crawler_add_to_queue, crawler_add_to_visited,
    assign_url, assign_response2, assign_cache_status2, read_url, read_response2,
    read_cache_status2, getitem, errors_append, urls_assign, urls_setitem,
    urls_date_append, network_assign, network_setitem, network_has,
    set_URLs, ret, raise, continue_, break_.

(** Split a statement along its sequencing and its branches and hand the
    single steps to [leaf]. *)
Ltac walk_with known leaf :=
  first
    [ known; walk_with known leaf
    | lazymatch goal with
      | |- Reflexive _ => typeclasses eauto
      | |- Transitive _ => typeclasses eauto
      | |- forall _, _ => intros ?; walk_with known leaf
      | |- preserves _ (bind _ _) =>
          apply preserves_bind; walk_with known leaf
      | |- preserves _ (try_except _ _ _) =>
          apply preserves_try_except; walk_with known leaf
      | |- preserves _ (for_each _ _) =>
          apply preserves_for_each; walk_with known leaf
      | |- preserves _ (match ?x with _ => _ end) =>
          destruct x; walk_with known leaf
      | |- _ => leaf
      end ].

Ltac walk leaf := walk_with ltac:(fail) leaf.

Ltac one_step solve_it :=
  let s := fresh "s" in
  intros s; unfold_steps; simpl; repeat (case_match; simpl); solve_it.

Ltac solve_extends :=
  unfold extends; simpl;
  first [ by (exists []; rewrite app_nil_r) | by eexists [_] ].

Ltac solve_same_URLs := unfold same_URLs; simpl; reflexivity.

Ltac solve_flag_follows :=
  unfold flag_follows; simpl;
  first [ by (exists []; simpl; rewrite app_nil_r, orb_false_r)
        | eexists [_]; simpl; split; [reflexivity | by rewrite orb_false_r] ].

(** *** The trace only grows *)

Lemma classify_extends h : preserves extends (classify (C:=C) (W:=W) cfg h).
Proof. unfold classify. walk ltac:(idtac; one_step solve_extends). Qed.

Lemma set_cache_headers_true_extends :
  preserves extends (set_cache_headers_true (C:=C) (W:=W)).
Proof. intros s. by exists []; rewrite app_nil_r. Qed.

Ltac extends_leaf :=
  first [ apply classify_extends
        | apply set_cache_headers_true_extends
        | one_step solve_extends ].

Lemma select_url_extends : preserves extends (select_url (C:=C) (W:=W) cfg).
Proof. unfold select_url. walk extends_leaf. Qed.

Lemma fetch1_extends url : preserves extends (fetch1 (C:=C) (W:=W) url).
Proof. unfold fetch1. walk extends_leaf. Qed.

Lemma register_extends url r :
  preserves extends (register (C:=C) (W:=W) cfg url r).
Proof. unfold register. walk extends_leaf. Qed.

Lemma cache_gate_extends url r :
  preserves extends (cache_gate (C:=C) (W:=W) cfg url r).
Proof. unfold cache_gate. walk extends_leaf. Qed.

Lemma cache_bust_probe_extends url h :
  preserves extends (cache_bust_probe (C:=C) (W:=W) cfg url h).
Proof. unfold cache_bust_probe. walk extends_leaf. Qed.

Lemma temporal_check_extends url r h :
  preserves extends (temporal_check (C:=C) (W:=W) cfg url r h).
Proof.
  unfold temporal_check.
  walk ltac:(first [ apply cache_bust_probe_extends | extends_leaf ]).
Qed.

Lemma date_probe_extends url r cs :
  preserves extends (date_probe (C:=C) (W:=W) cfg url r cs).
Proof.
  unfold date_probe, open_entry.
  walk ltac:(first [ apply temporal_check_extends | extends_leaf ]).
Qed.

(** *** Up to [date_probe] no entry of the statistics is touched *)

Lemma select_url_same_URLs : preserves same_URLs (select_url (C:=C) (W:=W) cfg).
Proof. unfold select_url. walk ltac:(idtac; one_step solve_same_URLs). Qed.

Lemma fetch1_same_URLs url : preserves same_URLs (fetch1 (C:=C) (W:=W) url).
Proof. unfold fetch1. walk ltac:(idtac; one_step solve_same_URLs). Qed.

Lemma register_same_URLs url r :
  preserves same_URLs (register (C:=C) (W:=W) cfg url r).
Proof. unfold register. walk ltac:(idtac; one_step solve_same_URLs). Qed.

Lemma cache_gate_same_URLs url r :
  preserves same_URLs (cache_gate (C:=C) (W:=W) cfg url r).
Proof.
  unfold cache_gate, classify, set_cache_headers_true.
  walk ltac:(idtac; one_step solve_same_URLs).
Qed.

Lemma up_to_date_probe_same_URLs :
  preserves same_URLs (up_to_date_probe (C:=C) (W:=W) cfg).
Proof.
  unfold up_to_date_probe.
  walk_with
    ltac:(first [ apply select_url_same_URLs | apply fetch1_same_URLs
                | apply register_same_URLs | apply cache_gate_same_URLs ])
    ltac:(idtac; one_step solve_same_URLs).
Qed.

(** *** The flag follows the classifications *)

(** A classification and the [if] on its verdict that follows it. *)
Lemma classify_flag_follows {B} h (k : string -> M C W B) :
  (forall v, preserves flag_follows (k v)) ->
  preserves flag_follows
    (bind (classify cfg h) (fun v =>
       bind (if negb (String.eqb v "-") then set_cache_headers_true else ret tt)
            (fun _ => k v))).
Proof.
  intros Hk s. unfold classify, bind, emit, ret. simpl.
  set (v := cache_headers_heuristics cfg h).
  transitivity
    ((if negb (String.eqb v "-") then set_cache_headers_true else ret tt)
       (add_event (EvClassify h v) s)).2.
  - exists [EvClassify h v]. simpl.
    destruct (String.eqb v "-"); simpl; by rewrite ?orb_false_r, ?orb_true_r.
  - destruct (String.eqb v "-"); simpl; apply Hk.
Qed.

(** The same with the assignment to [cache_status2] in between. *)
Lemma classify_assign_flag_follows {B} h (k : string -> M C W B) :
  (forall v, preserves flag_follows (k v)) ->
  preserves flag_follows
    (bind (classify cfg h) (fun v =>
       bind (assign_cache_status2 v) (fun _ =>
         bind (if negb (String.eqb v "-") then set_cache_headers_true
               else ret tt)
              (fun _ => k v)))).
Proof.
  intros Hk s. unfold classify, bind, emit, ret, assign_cache_status2. simpl.
  set (v := cache_headers_heuristics cfg h).
  set (s1 := set_vars _ _).
  transitivity
    ((if negb (String.eqb v "-") then set_cache_headers_true else ret tt) s1).2.
  - exists [EvClassify h v]. simpl.
    destruct (String.eqb v "-"); simpl; by rewrite ?orb_false_r, ?orb_true_r.
  - destruct (String.eqb v "-"); simpl; apply Hk.
Qed.

Ltac flag_known :=
  first [ apply classify_flag_follows | apply classify_assign_flag_follows ].

Lemma select_url_flag_follows :
  preserves flag_follows (select_url (C:=C) (W:=W) cfg).
Proof. unfold select_url. walk ltac:(idtac; one_step solve_flag_follows). Qed.

Lemma fetch1_flag_follows url :
  preserves flag_follows (fetch1 (C:=C) (W:=W) url).
Proof. unfold fetch1. walk ltac:(idtac; one_step solve_flag_follows). Qed.

Lemma register_flag_follows url r :
  preserves flag_follows (register (C:=C) (W:=W) cfg url r).
Proof. unfold register. walk ltac:(idtac; one_step solve_flag_follows). Qed.

Lemma cache_gate_flag_follows url r :
  preserves flag_follows (cache_gate (C:=C) (W:=W) cfg url r).
Proof.
  unfold cache_gate. walk_with flag_known ltac:(idtac; one_step solve_flag_follows).
Qed.

Lemma date_probe_flag_follows url r cs :
  preserves flag_follows (date_probe (C:=C) (W:=W) cfg url r cs).
Proof.
  unfold date_probe, open_entry, temporal_check, cache_bust_probe.
  walk ltac:(idtac; one_step solve_flag_follows).
Qed.

Lemma body_flag_follows : preserves flag_follows (body (C:=C) (W:=W) cfg).
Proof.
  unfold body.
  walk_with
    ltac:(first [ apply select_url_flag_follows | apply fetch1_flag_follows
                | apply register_flag_follows | apply cache_gate_flag_follows
                | apply date_probe_flag_follows ])
    ltac:(idtac; one_step solve_flag_follows).
Qed.

Lemma iteration_flag_follows :
  preserves flag_follows (iteration (C:=C) (W:=W) cfg).
Proof.
  unfold iteration.
  walk_with ltac:(idtac; apply body_flag_follows) ltac:(idtac; one_step solve_flag_follows).
Qed.

Lemma while_loop_flag_follows fuel s :
  flag_follows s (while_loop cfg fuel s).2.
Proof.
  revert s. induction fuel as [|fuel IH]; intros s; simpl.
  - reflexivity.
  - destruct (should_continue (crawler s)); [| reflexivity].
    pose proof (iteration_flag_follows s) as Hit.
    destruct (iteration cfg s) as [[[]| | |e] s']; simpl in *;
      try done; (etransitivity; [exact Hit | apply IH]).
Qed.

(** *** What each stage does *)

Ltac fields :=
  cbn [world crawler statistics network vars trace set_world set_crawler
       set_statistics set_network set_vars add_event fst snd l_url
       l_response2 l_cache_status2 site cache_headers tested URLs errors].

Ltac fields_in H :=
  cbn [world crawler statistics network vars trace set_world set_crawler
       set_statistics set_network set_vars add_event fst snd l_url
       l_response2 l_cache_status2 site cache_headers tested URLs errors] in H.

(** Decide the comparisons of two string literals. *)
Ltac literals :=
  repeat match goal with
    | |- context [String.eqb ?a ?b] =>
        let v := eval vm_compute in (String.eqb a b) in
        lazymatch v with
        | true => change (String.eqb a b) with true
        | false => change (String.eqb a b) with false
        end
    end;
  cbn [negb].

Ltac exec :=
  unfold classify, logger_info, logger_error, time_sleep; unfold_steps;
  unfold set_cache_headers_true, bind, try_except;
  cbv beta iota zeta; fields.

Lemma select_url_Val s url s1 :
  select_url cfg s = (Val url, s1) ->
  exists c,
    get_url_from_queue (crawler s) = (Some url, c)
    /\ is_visited c url = false
    /\ s1 = selected s url c.
Proof.
  unfold select_url. exec.
  destruct (get_url_from_queue (crawler s)) as [[u|] c] eqn:Hq; exec;
    [| discriminate].
  destruct (is_visited c u) eqn:Hv; [discriminate |].
  destruct (truthy (args_exclude cfg) && re_search_any cfg (args_exclude cfg) u);
    [discriminate |].
  exec.
  destruct (existsb _ (EXCLUDED_EXTENSIONS c)); [discriminate |].
  exec. intros [= <- <-]. by exists c.
Qed.

(** A [select_url] that hands no URL over ends the iteration with
    [continue] or [break] and calls nothing. *)
Lemma select_url_not_Val s :
  (forall url, (select_url cfg s).1 <> Val url) ->
  trace (select_url cfg s).2 = trace s
  /\ ((select_url cfg s).1 = Continue \/ (select_url cfg s).1 = Break).
Proof.
  unfold select_url. exec.
  destruct (get_url_from_queue (crawler s)) as [[u|] c] eqn:Hq; exec;
    [| by auto].
  destruct (is_visited c u) eqn:Hv; [by auto |].
  destruct (truthy (args_exclude cfg) && re_search_any cfg (args_exclude cfg) u);
    [by auto |].
  exec.
  destruct (existsb _ (EXCLUDED_EXTENSIONS c)); [by auto |].
  exec. intros Hno. by destruct (Hno u).
Qed.

(** The first request, answered. *)
Lemma fetch1_answered s url response w :
  browser_get (world s) (first_request url) = (inl response, w) ->
  fetch1 url s
  = (Val response, set_world w (add_event (EvGet (first_request url)) s)).
Proof. intros Hget. unfold fetch1. exec. by rewrite Hget. Qed.

(** The first request, failed with one of the six transport errors. *)
Lemma fetch1_transport_error s url e w :
  browser_get (world s) (first_request url) = (inr e, w) ->
  is_transport_error e = true ->
  fetch1 (C:=C) url s
  = (Continue,
     set_statistics
       (mkStatistics (site (statistics s)) (cache_headers (statistics s))
          (tested (statistics s)) (URLs (statistics s))
          (Some (default [] (errors (statistics s))
                 ++ [mkError (Some url) (exc_type e) (exc_str e)
                             (exc_traceback e)])))
       (add_event (EvLog ERROR ("ERROR: " +:+ url +:+ " -> " +:+ exc_str e))
          (set_world w (add_event (EvGet (first_request url)) s)))).
Proof.
  intros Hget He. unfold fetch1. exec. rewrite Hget. exec. rewrite He. exec.
  by destruct (errors (statistics s)).
Qed.

Lemma fetch1_Val s url response s2 :
  fetch1 url s = (Val response, s2) ->
  exists w,
    browser_get (world s) (first_request url) = (inl response, w)
    /\ s2 = set_world w (add_event (EvGet (first_request url)) s).
Proof.
  unfold fetch1. exec.
  destruct (browser_get (world s) (first_request url)) as [[r|e] w] eqn:Hget;
    exec.
  - intros [= <- <-]. by exists w.
  - destruct (is_transport_error e); exec; discriminate.
Qed.

(** Queueing the links touches the crawler and the trace only. *)
Lemma for_each_add_to_queue links s :
  exists s',
    for_each links crawler_add_to_queue s = (Val tt, s')
    /\ world s' = world s /\ statistics s' = statistics s
    /\ network s' = network s /\ vars s' = vars s
    /\ trace s' = trace s ++ map EvAddToQueue links.
Proof.
  revert s. induction links as [|l links IH]; intros s; simpl.
  - exists s. by rewrite app_nil_r.
  - destruct (IH (set_crawler (add_to_queue (crawler s) l)
                    (add_event (EvAddToQueue l) s)))
      as (s' & Hrun & Hw & Hst & Hn & Hv & Ht).
    exists s'. unfold bind at 1. unfold crawler_add_to_queue at 1.
    rewrite Hrun. repeat split; try done.
    rewrite Ht. simpl. by rewrite <- app_assoc.
Qed.

(** The URL the rest of the body works on: the one the redirects led to. *)
Lemma register_spec s url0 response :
  let url := if String.eqb (resp_url response) url0 then url0
             else resp_url response in
  exists s',
    register cfg url0 response s = (Val url, s')
    /\ world s' = world s
    /\ statistics s' = statistics s
    /\ network s' = <[url := {[ "request1" := exchange_of response ]}]> (network s)
    /\ l_response2 (vars s') = l_response2 (vars s)
    /\ l_cache_status2 (vars s') = l_cache_status2 (vars s)
    /\ (l_url (vars s) = Some url0 -> l_url (vars s') = Some url)
    /\ trace s'
       = trace s
         ++ (if truthy_opt (args_url cfg) then []
             else map EvAddToQueue
                    (get_links (crawler s) (resp_url response)
                               (resp_text response)))
         ++ EvAddToVisited url0
         :: (if String.eqb (resp_url response) url0 then []
             else [EvAddToVisited (resp_url response)]).
Proof.
  unfold register.
  destruct (truthy_opt (args_url cfg)); simpl negb; cbv iota.
  - exec. destruct (String.eqb (resp_url response) url0); simpl negb; cbv iota;
      exec; eexists; repeat split; fields; rewrite <- ?app_assoc; done.
  - unfold bind at 1. unfold bind at 1. unfold crawler_get_links at 1.
    destruct (for_each_add_to_queue
                (get_links (crawler s) (resp_url response) (resp_text response)) s)
      as (sq & -> & Hw & Hst & Hn & Hv & Ht).
    exec. destruct (String.eqb (resp_url response) url0); simpl negb; cbv iota;
      exec; eexists; (split; [reflexivity |]); fields;
      rewrite ?Hw, ?Hst, ?Hn, ?Hv, ?Ht, <- ?app_assoc; repeat split; done.
Qed.

(** How [cache_gate] lets a URL through: on a HIT at once, on a MISS after
    two more requests of which the second is classified as a HIT. *)
Lemma cache_gate_Val s url response cache_status s' :
  cache_gate cfg url response s = (Val cache_status, s') ->
  cache_status = cache_headers_heuristics cfg (resp_headers response)
  /\ URLs (statistics s') = URLs (statistics s)
  /\ l_url (vars s') = l_url (vars s)
  /\ ((cache_status = "HIT"
       /\ world s' = world s /\ network s' = network s
       /\ trace s'
          = trace s
            ++ [EvClassify (resp_headers response) "HIT";
                EvLog INFO ("The response gets cached -> cache_status = "
                            +:+ "HIT")])
      \/ (cache_status = "MISS"
          /\ exists ra wa rb d,
               browser_get (world s) (plain_request url) = (inl ra, wa)
               /\ browser_get wa (plain_request url) = (inl rb, world s')
               /\ cache_headers_heuristics cfg (resp_headers rb) = "HIT"
               /\ network s !! url = Some d
               /\ network s' = <[url := <["request2" := exchange_of rb]> d]> (network s)
               /\ l_response2 (vars s') = Some rb
               /\ l_cache_status2 (vars s') = Some "HIT"
               /\ trace s'
                  = trace s
                    ++ [EvClassify (resp_headers response) "MISS";
                        EvSleep 1000; EvGet (plain_request url);
                        EvSleep 2000; EvGet (plain_request url);
                        EvClassify (resp_headers rb) "HIT";
                        EvLog INFO
                          ("The response gets cached -> cache_status = "
                           +:+ "MISS" +:+ "/" +:+ "HIT")])).
Proof.
  unfold cache_gate. exec.
  set (cs := cache_headers_heuristics cfg (resp_headers response)).
  destruct (String.eqb_spec cs "HIT") as [Hhit | Hnohit].
  - rewrite Hhit. cbn [String.eqb Ascii.eqb Bool.eqb negb]. exec.
    intros [= <- <-]. fields. rewrite <- app_assoc. repeat split; try done.
    by left.
  - destruct (String.eqb_spec cs "MISS") as [Hmiss | Hnomiss].
    2: { destruct (negb (cs =? "-")); exec; discriminate. }
    rewrite Hmiss. cbn [String.eqb Ascii.eqb Bool.eqb negb]. exec.
    destruct (browser_get (world s) (plain_request url)) as [[ra|ea] wa] eqn:Ha;
      exec; [| discriminate].
    destruct (browser_get wa (plain_request url)) as [[rb|eb] wb] eqn:Hb;
      exec; [| discriminate].
    destruct (network s !! url) as [d|] eqn:Hd; exec; [| discriminate].
    set (cs2 := cache_headers_heuristics cfg (resp_headers rb)).
    destruct (String.eqb_spec cs2 "HIT") as [Hhit2 | Hnohit2].
    2: { destruct (negb (cs2 =? "-")); exec; discriminate. }
    rewrite Hhit2. cbn [String.eqb Ascii.eqb Bool.eqb negb]. exec.
    intros [= <- <-]. fields. rewrite <- !app_assoc.
    repeat split; try done. right. split; [done |].
    by exists ra, wa, rb, d.
Qed.

(** *** Lookups in a response's headers *)

Lemma ci_contains_getitem key (h : dict) :
  ci_contains key h = true <-> exists v, ci_getitem key h = Some v.
Proof.
  induction h as [|[k v] h IH]; simpl.
  - split; [done | by intros [v Hv]].
  - destruct (String.eqb (lower k) (lower key)); simpl; [| done].
    split; [by exists v | done].
Qed.

Lemma ci_contains_false key (h : dict) :
  ci_contains key h = false <-> ci_getitem key h = None.
Proof.
  induction h as [|[k v] h IH]; simpl; [done |].
  by destruct (String.eqb (lower k) (lower key)).
Qed.

(** *** The entry of a URL *)

Lemma entry_date_lookup (status cache : pyval) (l : list string) :
  (<["cache" := cache]> ({[ "cache_status" := status; "date" := VList l ]}
     : gmap string pyval)) !! "date" = Some (VList l).
Proof.
  rewrite lookup_insert_ne by done. rewrite lookup_insert_ne by done.
  apply lookup_singleton_eq.
Qed.

Lemma entry_normal (status cache : pyval) (l0 l : list string) :
  <["date" := VList l]>
    (<["cache" := cache]> ({[ "cache_status" := status; "date" := VList l0 ]}))
  = ({[ "cache_status" := status; "date" := VList l; "cache" := cache ]}
     : gmap string pyval).
Proof.
  apply map_eq. intros k.
  destruct (decide (k = "date")) as [->|Hd];
    [by rewrite lookup_insert_eq, lookup_insert_ne, lookup_insert_eq |].
  rewrite lookup_insert_ne by done.
  destruct (decide (k = "cache")) as [->|Hc].
  - rewrite lookup_insert_eq. do 2 rewrite lookup_insert_ne by done.
    by rewrite lookup_singleton_eq.
  - rewrite lookup_insert_ne by done.
    destruct (decide (k = "cache_status")) as [->|Hs].
    + by rewrite !lookup_insert_eq.
    + do 3 rewrite lookup_insert_ne by done.
      by rewrite lookup_singleton_ne, lookup_singleton_ne.
Qed.

(** *** Splitting the body *)

Lemma bind_assoc {A B D} (c : M C W A) (k : A -> M C W B) (k' : B -> M C W D) s :
  bind (bind c k) k' s = bind c (fun a => bind (k a) k') s.
Proof. unfold bind. by destruct (c s) as [[a| | |e] s1]. Qed.

Lemma bind_Val_inv {A B} (c : M C W A) (k : A -> M C W B) s b s' :
  bind c k s = (Val b, s') ->
  exists a s1, c s = (Val a, s1) /\ k a s1 = (Val b, s').
Proof.
  unfold bind. destruct (c s) as [[a| | |e] s1]; try discriminate.
  intros Hk. by exists a, s1.
Qed.

Lemma bind_ext {A B} (c : M C W A) (k k' : A -> M C W B) s :
  (forall a s1, k a s1 = k' a s1) -> bind c k s = bind c k' s.
Proof. intros Hk. unfold bind. by destruct (c s) as [[a| | |e] s1]. Qed.

(** [body] is [up_to_date_probe] followed by [date_probe] and [break]. *)
Lemma body_split s :
  body cfg s
  = bind (up_to_date_probe cfg)
      (fun x => bind (date_probe cfg x.1.1 x.1.2 x.2) (fun _ => break_)) s.
Proof.
  unfold body, up_to_date_probe.
  rewrite bind_assoc. apply bind_ext. intros url0 s1.
  rewrite bind_assoc. apply bind_ext. intros response s2.
  rewrite bind_assoc. apply bind_ext. intros url s3.
  rewrite bind_assoc. apply bind_ext. intros cs s4.
  reflexivity.
Qed.

Lemma up_to_date_probe_inv s url response cache_status s4 :
  up_to_date_probe cfg s = (Val (url, response, cache_status), s4) ->
  exists url0 s1 s2 s3,
    select_url cfg s = (Val url0, s1)
    /\ fetch1 url0 s1 = (Val response, s2)
    /\ register cfg url0 response s2 = (Val url, s3)
    /\ cache_gate cfg url response s3 = (Val cache_status, s4).
Proof.
  unfold up_to_date_probe. intros Hrun.
  apply bind_Val_inv in Hrun as (url0 & s1 & Hsel & Hrun).
  apply bind_Val_inv in Hrun as (response' & s2 & Hfetch & Hrun).
  apply bind_Val_inv in Hrun as (url' & s3 & Hreg & Hrun).
  apply bind_Val_inv in Hrun as (cs & s4' & Hgate & Hret).
  injection Hret as -> -> -> ->. by exists url0, s1, s2, s3.
Qed.

(** What holds when [date_probe] is entered. *)
Lemma up_to_date_probe_Val s url response cache_status s4 :
  up_to_date_probe cfg s = (Val (url, response, cache_status), s4) ->
  URLs (statistics s4) = URLs (statistics s)
  /\ l_url (vars s4) = Some url
  /\ (exists d, network s4 !! url = Some d /\ d !! "response2" = None)
  /\ (cache_status = "HIT"
      \/ cache_status = "MISS" /\ l_cache_status2 (vars s4) = Some "HIT").
Proof.
  intros Hrun. split.
  { pose proof (up_to_date_probe_same_URLs s) as Hsame. by rewrite Hrun in Hsame. }
  revert Hrun.
  intros (url0 & s1 & s2 & s3 & Hsel & Hfetch & Hreg & Hgate)%up_to_date_probe_inv.
  apply select_url_Val in Hsel as (c & _ & _ & ->).
  apply fetch1_Val in Hfetch as (w & _ & ->).
  destruct (register_spec
              (set_world w (add_event (EvGet (first_request url0))
                              (selected s url0 c))) url0 response)
    as (s3' & Hreg' & _ & _ & Hnet & _ & _ & Hurl & _).
  rewrite Hreg in Hreg'. injection Hreg' as Hu <-.
  rewrite <- Hu in Hnet, Hurl.
  apply cache_gate_Val in Hgate as (_ & _ & Hurl' & Hcases).
  rewrite Hurl'. split; [by apply Hurl |].
  destruct Hcases as [(-> & _ & Hn & _) | (-> & ra & wa & rb & d & _ & _ & _ & Hd & Hn & _ & Hcs2 & _)].
  - split; [| by left]. rewrite Hn, Hnet, lookup_insert_eq. eexists. split; [done |].
    by rewrite lookup_singleton_ne.
  - split; [| by right]. rewrite Hn, lookup_insert_eq.
    rewrite Hnet, lookup_insert_eq in Hd. injection Hd as <-.
    eexists. split; [done |].
    by rewrite lookup_insert_ne, lookup_singleton_ne.
Qed.

(** *** Entering [date_probe] *)

(** Lines 314-340 after [up_to_date_probe]: the entry is written with the
    status HIT and the headers looked at are those of the first response,
    whichever way the URL came: [network[url]] has no key ['response2']. *)
Lemma open_entry_spec s url response cache_status d :
  network s !! url = Some d ->
  d !! "response2" = None ->
  (cache_status = "HIT"
   \/ cache_status = "MISS" /\ l_cache_status2 (vars s) = Some "HIT") ->
  open_entry cfg url response cache_status s
  = (Val (resp_headers response), opened s url response d).
Proof.
  intros Hd Hno Hcs. unfold open_entry, opened, fresh_entry. exec.
  assert (bool_decide (is_Some (d !! "response2")) = false) as Hkey.
  { rewrite Hno. apply bool_decide_eq_false_2. by intros [? ?]. }
  destruct Hcs as [-> | [-> Hcs2]]; literals; exec;
    repeat (first [rewrite Hcs2 | rewrite Hd | rewrite Hkey]; exec);
    reflexivity.
Qed.

(** Collapse the writes made to one entry and to one trace. *)
Ltac tidy :=
  fields;
  rewrite ?insert_insert_eq, ?entry_normal, <- ?app_assoc;
  cbn [app].

(** Run a statement whose branches are decided by the equations at hand:
    [rewrite_facts] rewrites with them. *)
Ltac run_with rewrite_facts :=
  exec;
  repeat (first [ rewrite_facts
                | rewrite lookup_insert_eq
                | rewrite entry_date_lookup ];
          exec).

(** The response with which [date_probe] is entered carries no Date: the
    entry stays as line 317 wrote it. *)
Lemma date_probe_without_date s url response cache_status d :
  network s !! url = Some d ->
  d !! "response2" = None ->
  (cache_status = "HIT"
   \/ cache_status = "MISS" /\ l_cache_status2 (vars s) = Some "HIT") ->
  ci_contains "Date" (resp_headers response) = false ->
  date_probe cfg url response cache_status s
  = (Val tt, opened s url response d).
Proof.
  intros Hd Hno Hcs Hdate. unfold date_probe. unfold bind at 1.
  rewrite (open_entry_spec _ _ _ _ _ Hd Hno Hcs). by rewrite Hdate.
Qed.

(** The second look comes back without a Date: one request after the
    1.5 s, nothing more. *)
Lemma date_probe_second_without_date s url response cache_status d d1 r2 w2 :
  network s !! url = Some d ->
  d !! "response2" = None ->
  (cache_status = "HIT"
   \/ cache_status = "MISS" /\ l_cache_status2 (vars s) = Some "HIT") ->
  ci_getitem "Date" (resp_headers response) = Some d1 ->
  browser_get (world s) (plain_request url) = (inl r2, w2) ->
  ci_contains "Date" (resp_headers r2) = false ->
  exists s',
    date_probe cfg url response cache_status s = (Val tt, s')
    /\ world s' = w2
    /\ crawler s' = crawler s
    /\ URLs (statistics s')
       = <[url := {[ "cache_status" := VStr "HIT"; "date" := VList [d1];
                     "cache" := VList (identify (resp_headers response)) ]}]>
           (URLs (statistics s))
    /\ trace s'
       = trace s
         ++ [EvLog INFO ("Testing the Date header on " +:+ url);
             EvLog INFO ("Identified cache: " +:+ OKGREEN
                         +:+ String.concat ", " (identify (resp_headers response))
                         +:+ ENDC);
             EvLog INFO ("Found Date header: " +:+ d1);
             EvSleep 1500;
             EvGet (plain_request url)].
Proof.
  intros Hd Hno Hcs Hd1 Hget Hd2.
  assert (ci_contains "Date" (resp_headers response) = true) as Hc1
    by (apply ci_contains_getitem; eauto).
  unfold date_probe. unfold bind at 1.
  rewrite (open_entry_spec _ _ _ _ _ Hd Hno Hcs). rewrite Hc1.
  unfold temporal_check, opened, fresh_entry.
  run_with ltac:(first [rewrite Hd1 | rewrite Hget | rewrite Hd2]).
  eexists. split; [reflexivity |]. tidy. done.
Qed.

(** All three looks find a Date. *)
Lemma date_probe_three_dates s url response cache_status d d1 r2 w2 d2
    _url _headers _cookies w3 r3 w4 d3 :
  let vary := if ci_contains "Vary" (resp_headers response)
              then default "" (ci_getitem "Vary" (resp_headers response))
              else "" in
  network s !! url = Some d ->
  d !! "response2" = None ->
  (cache_status = "HIT"
   \/ cache_status = "MISS" /\ l_cache_status2 (vars s) = Some "HIT") ->
  ci_getitem "Date" (resp_headers response) = Some d1 ->
  browser_get (world s) (plain_request url) = (inl r2, w2) ->
  ci_getitem "Date" (resp_headers r2) = Some d2 ->
  cache_bust_request w2 url headers (cookies cfg) vary
  = ((_url, _headers, _cookies), w3) ->
  browser_get w3 (busted_request _url _headers _cookies) = (inl r3, w4) ->
  ci_getitem "Date" (resp_headers r3) = Some d3 ->
  exists s',
    date_probe cfg url response cache_status s = (Val tt, s')
    /\ world s' = w4
    /\ crawler s' = crawler s
    /\ URLs (statistics s')
       = <[url := {[ "cache_status" := VStr "HIT";
                     "date" := VList [d1; d2; d3];
                     "cache" := VList (identify (resp_headers response)) ]}]>
           (URLs (statistics s))
    /\ trace s'
       = trace s
         ++ [EvLog INFO ("Testing the Date header on " +:+ url);
             EvLog INFO ("Identified cache: " +:+ OKGREEN
                         +:+ String.concat ", " (identify (resp_headers response))
                         +:+ ENDC);
             EvLog INFO ("Found Date header: " +:+ d1);
             EvSleep 1500;
             EvGet (plain_request url);
             EvLog INFO ("Found Date header: " +:+ d2);
             EvLog INFO
               (if String.eqb d1 d2
                then "The Date header is " +:+ WARNING +:+ "not changing"
                     +:+ ENDC
                else "The Date header is " +:+ OKGREEN +:+ "changing" +:+ ENDC);
             EvSleep 1500;
             EvCacheBust url headers (cookies cfg) vary;
             EvGet (busted_request _url _headers _cookies);
             EvLog INFO ("Found Date header: " +:+ d3);
             EvLog INFO
               (if String.eqb d1 d3
                then "The Date header is " +:+ WARNING +:+ "not changing"
                     +:+ ENDC +:+ " after cache busting"
                else "The Date header is " +:+ OKGREEN +:+ "changing" +:+ ENDC
                     +:+ " after cache busting")].
Proof.
  intros vary Hd Hno Hcs Hd1 Hget2 Hd2 Hbust Hget3 Hd3.
  assert (ci_contains "Date" (resp_headers response) = true) as Hc1
    by (apply ci_contains_getitem; eauto).
  assert (ci_contains "Date" (resp_headers r2) = true) as Hc2
    by (apply ci_contains_getitem; eauto).
  assert (ci_contains "Date" (resp_headers r3) = true) as Hc3
    by (apply ci_contains_getitem; eauto).
  unfold date_probe. unfold bind at 1.
  rewrite (open_entry_spec _ _ _ _ _ Hd Hno Hcs). rewrite Hc1.
  unfold temporal_check, cache_bust_probe, opened, fresh_entry.
  fold vary.
  run_with ltac:(first [ rewrite Hd1 | rewrite Hget2 | rewrite Hc2
                       | rewrite Hd2 ]).
  destruct (String.eqb d1 d2); cbn [negb];
    run_with ltac:(first [ rewrite Hd1 | rewrite Hbust | rewrite Hget3
                         | rewrite Hc3 | rewrite Hd3 ]);
    (destruct (String.eqb d1 d3); cbn [negb]; exec;
     eexists; (split; [reflexivity |]); tidy; done).
Qed.

(** *** No cache-busting call before [date_probe] *)

#[local] Instance unbusted_refl : Reflexive (unbusted (C:=C) (W:=W)).
Proof. intros s. exists []. by rewrite app_nil_r. Qed.

#[local] Instance unbusted_trans : Transitive (unbusted (C:=C) (W:=W)).
Proof.
  intros s1 s2 s3 (e1 & Ht1 & Hb1) (e2 & Ht2 & Hb2). exists (e1 ++ e2).
  split.
  - by rewrite Ht2, Ht1, app_assoc.
  - by rewrite existsb_app, Hb1, Hb2.
Qed.

Ltac solve_unbusted :=
  unfold unbusted; simpl;
  first [ by (exists []; rewrite app_nil_r)
        | eexists [_]; split; [reflexivity | reflexivity] ].

Lemma up_to_date_probe_unbusted :
  preserves unbusted (up_to_date_probe (C:=C) (W:=W) cfg).
Proof.
  unfold up_to_date_probe, select_url, fetch1, register, cache_gate, classify,
    set_cache_headers_true.
  walk ltac:(idtac; one_step solve_unbusted).
Qed.

(** *** From the body to the iteration *)

Lemma body_reached s url response cache_status s4 s' :
  up_to_date_probe cfg s = (Val (url, response, cache_status), s4) ->
  date_probe cfg url response cache_status s4 = (Val tt, s') ->
  body cfg s = (Break, s').
Proof.
  intros Hup Hprobe. rewrite body_split. rewrite (bind_Val _ _ _ _ _ Hup).
  cbn [fst snd]. by rewrite (bind_Val _ _ _ _ _ Hprobe).
Qed.

Lemma iteration_of_body s o s' :
  body cfg s = (o, s') ->
  (forall e, o <> Raise e) ->
  iteration cfg s = (o, s').
Proof.
  intros Hbody Ho. unfold iteration, try_except. rewrite Hbody.
  destruct o as [[]| | |e]; try done. by destruct (Ho e).
Qed.

Lemma iteration_reached s url response cache_status s4 s' :
  up_to_date_probe cfg s = (Val (url, response, cache_status), s4) ->
  date_probe cfg url response cache_status s4 = (Val tt, s') ->
  iteration cfg s = (Break, s').
Proof.
  intros Hup Hprobe. apply iteration_of_body; [| done].
  by apply (body_reached _ _ _ _ _ _ Hup).
Qed.

(** The handlers of the outer [try] leave the entries alone. *)
Lemma iteration_same_URLs_after_body s :
  same_URLs (body cfg s).2 (iteration cfg s).2.
Proof.
  unfold iteration, try_except.
  destruct (body cfg s) as [[[]| | |e] s'] eqn:Hbody; try done.
  cbn [fst snd]. destruct (exc_class_of e); exec; done.
Qed.

(** An entry of three keys holds no boolean. *)
Lemma entry_no_bool status dates providers b :
  ~ has_bool_outcome
      ({[ "cache_status" := VStr status; "date" := VList dates;
          "cache" := VList providers ]}) b.
Proof.
  intros [key Hkey].
  destruct (decide (key = "cache_status")) as [->|H1];
    [by rewrite lookup_insert_eq in Hkey |].
  rewrite lookup_insert_ne in Hkey by done.
  destruct (decide (key = "date")) as [->|H2];
    [by rewrite lookup_insert_eq in Hkey |].
  rewrite lookup_insert_ne in Hkey by done.
  destruct (decide (key = "cache")) as [->|H3];
    [by rewrite lookup_singleton_eq in Hkey |].
  by rewrite lookup_singleton_ne in Hkey.
Qed.

Lemma new_events_app s s' evs :
  trace s' = trace s ++ evs -> new_events s s' = evs.
Proof. intros Ht. unfold new_events. by rewrite Ht, drop_app_length. Qed.

(** The iteration of a URL whose first request fails with a transport
    error. *)
Lemma first_request_fails s url s1 e w :
  select_url cfg s = (Val url, s1) ->
  browser_get (world s1) (first_request url) = (inr e, w) ->
  is_transport_error e = true ->
  exists s',
    iteration cfg s = (Continue, s')
    /\ errors (statistics s')
       = Some (default [] (errors (statistics s))
               ++ [mkError (Some url) (exc_type e) (exc_str e)
                           (exc_traceback e)])
    /\ URLs (statistics s') = URLs (statistics s)
    /\ crawler s' = crawler s1
    /\ trace s'
       = trace s1
         ++ [EvGet (first_request url);
             EvLog ERROR ("ERROR: " +:+ url +:+ " -> " +:+ exc_str e)]
    /\ (should_continue (crawler s) = true ->
        forall fuel, while_loop cfg (S fuel) s = while_loop cfg fuel s').
Proof.
  intros Hsel Hget He.
  pose proof (fetch1_transport_error s1 url e w Hget He) as Hfetch.
  set (s' := (fetch1 url s1).2).
  assert (iteration cfg s = (Continue, s')) as Hit.
  { apply iteration_of_body; [| done]. unfold body.
    rewrite (bind_Val _ _ _ _ _ Hsel).
    apply bind_Continue. unfold s'. by rewrite Hfetch. }
  assert (should_continue (crawler s) = true ->
          forall fuel, while_loop cfg (S fuel) s = while_loop cfg fuel s')
    as Hloop.
  { intros Hgo fuel. cbn [while_loop]. by rewrite Hgo, Hit. }
  exists s'. split; [done |].
  split; [| split; [| split; [| split; [| exact Hloop]]]].
  all: apply select_url_Val in Hsel as (c & _ & _ & Hs1).
  all: unfold s'; rewrite Hfetch; fields; rewrite <- ?app_assoc.
  all: rewrite ?Hs1; unfold selected; fields; done.
Qed.

(** ** The claims about the probe loop *)

(** C1, as the code has it. Whenever the cycle of a URL reaches the
    cache-busting probe with the Date of the second look equal to the
    baseline [d1] and the cache-busted response carries another Date [d3],
    the iteration ends with the entry of the URL holding the status, the
    three Dates in the order they were seen and the providers: three keys,
    none of them a boolean. That the Date changed is only written to the
    log, as the last message of the iteration. *)
Theorem C1_busted_date_recorded_without_verdict
    s url response cache_status s4 d1 r2 w2 _url _headers _cookies w3 r3 w4 d3 :
  let vary := if ci_contains "Vary" (resp_headers response)
              then default "" (ci_getitem "Vary" (resp_headers response))
              else "" in
  up_to_date_probe cfg s = (Val (url, response, cache_status), s4) ->
  ci_getitem "Date" (resp_headers response) = Some d1 ->
  browser_get (world s4) (plain_request url) = (inl r2, w2) ->
  ci_getitem "Date" (resp_headers r2) = Some d1 ->
  cache_bust_request w2 url headers (cookies cfg) vary
  = ((_url, _headers, _cookies), w3) ->
  browser_get w3 (busted_request _url _headers _cookies) = (inl r3, w4) ->
  ci_getitem "Date" (resp_headers r3) = Some d3 ->
  d3 <> d1 ->
  exists s' entry,
    iteration cfg s = (Break, s')
    /\ URLs (statistics s') !! url = Some entry
    /\ entry = {[ "cache_status" := VStr "HIT";
                  "date" := VList [d1; d1; d3];
                  "cache" := VList (identify (resp_headers response)) ]}
    /\ (forall b, ~ has_bool_outcome entry b)
    /\ last (trace s')
       = Some (EvLog INFO ("The Date header is " +:+ OKGREEN +:+ "changing"
                           +:+ ENDC +:+ " after cache busting")).
Proof.
  intros vary Hup Hd1 Hget2 Hd2 Hbust Hget3 Hd3 Hne.
  destruct (up_to_date_probe_Val _ _ _ _ _ Hup)
    as (_ & _ & (d & Hd & Hno) & Hcs).
  destruct (date_probe_three_dates s4 url response cache_status d d1 r2 w2 d1
              _url _headers _cookies w3 r3 w4 d3
              Hd Hno Hcs Hd1 Hget2 Hd2 Hbust Hget3 Hd3)
    as (s' & Hprobe & _ & _ & HURLs & Htrace).
  exists s'. eexists. split; [by apply (iteration_reached _ _ _ _ _ _ Hup) |].
  split; [by rewrite HURLs, lookup_insert_eq |].
  split; [reflexivity |]. split; [intros b; apply entry_no_bool |].
  rewrite Htrace.
  assert (String.eqb d1 d3 = false) as ->
    by (apply String.eqb_neq; congruence).
  rewrite last_app. reflexivity.
Qed.

(** C10: when the cycle of a URL reaches the second look (the response
    [date_probe] is entered with has a Date, [d1]) and the response to the
    request made 1.5 s later has no Date header, nothing of the
    cache-busting probe happens in the whole iteration: no busted request
    is built, none is sent, and the iteration ends with the Date list of
    the URL holding [d1] alone. *)
Theorem C10_no_cache_bust_without_second_date
    s url response cache_status s4 d1 r2 w2 :
  up_to_date_probe cfg s = (Val (url, response, cache_status), s4) ->
  ci_getitem "Date" (resp_headers response) = Some d1 ->
  browser_get (world s4) (plain_request url) = (inl r2, w2) ->
  ci_contains "Date" (resp_headers r2) = false ->
  exists s',
    iteration cfg s = (Break, s')
    /\ existsb busting (new_events s s') = false
    /\ URLs (statistics s') !! url
       = Some {[ "cache_status" := VStr "HIT"; "date" := VList [d1];
                 "cache" := VList (identify (resp_headers response)) ]}.
Proof.
  intros Hup Hd1 Hget Hno2.
  destruct (up_to_date_probe_Val _ _ _ _ _ Hup)
    as (_ & _ & (d & Hd & Hno) & Hcs).
  destruct (date_probe_second_without_date s4 url response cache_status d d1
              r2 w2 Hd Hno Hcs Hd1 Hget Hno2)
    as (s' & Hprobe & _ & _ & HURLs & Htrace).
  exists s'. split; [by apply (iteration_reached _ _ _ _ _ _ Hup) |].
  split; [| by rewrite HURLs, lookup_insert_eq].
  pose proof (up_to_date_probe_unbusted s) as (evs & Hevs & Hnone).
  rewrite Hup in Hevs. cbn [snd] in Hevs.
  rewrite Hevs, <- app_assoc in Htrace.
  rewrite (new_events_app _ _ _ Htrace), existsb_app, Hnone.
  reflexivity.
Qed.

(** C7, as the code has it. The entry of a URL is written when
    [date_probe] is entered, before the Date header is looked for, and is
    filled in from there. An iteration that gives the URL up before that
    point (the URL is skipped, the first request fails, the verdict is
    neither a HIT nor a MISS confirmed as a HIT, a confirmation request
    raises) leaves the entries as they were. An iteration that enters
    [date_probe] with a response without Date header ends with the entry
    [{'cache_status': 'HIT', 'date': []}] under the URL. *)
Theorem C7_entry_written_before_date_check s :
  ((forall x, (up_to_date_probe cfg s).1 <> Val x) ->
   URLs (statistics (iteration cfg s).2) = URLs (statistics s))
  /\ (forall url response cache_status s4,
        up_to_date_probe cfg s = (Val (url, response, cache_status), s4) ->
        ci_contains "Date" (resp_headers response) = false ->
        exists s',
          iteration cfg s = (Break, s')
          /\ URLs (statistics s')
             = <[url := {[ "cache_status" := VStr "HIT"; "date" := VList [] ]}]>
                 (URLs (statistics s))).
Proof.
  split.
  - intros Hnot.
    pose proof (iteration_same_URLs_after_body s) as Hhandler.
    pose proof (up_to_date_probe_same_URLs s) as Hup.
    unfold same_URLs in Hhandler, Hup. rewrite Hhandler, <- Hup.
    rewrite body_split.
    destruct (bind_cases (up_to_date_probe cfg)
                (fun x => bind (date_probe cfg x.1.1 x.1.2 x.2)
                            (fun _ => break_ (A:=unit))) s)
      as [(x & Hx & _) | (_ & ->)]; [by destruct (Hnot x) | done].
  - intros url response cache_status s4 Hup Hnodate.
    destruct (up_to_date_probe_Val _ _ _ _ _ Hup)
      as (HURLs & _ & (d & Hd & Hno) & Hcs).
    exists (opened s4 url response d). split.
    + apply (iteration_reached _ _ _ _ _ _ Hup).
      by apply date_probe_without_date.
    + unfold opened, fresh_entry. fields. unfold set_URLs. fields.
      by rewrite HURLs.
Qed.

(** C8: when the first request of a URL fails with one of the six
    transport errors, the iteration appends to [statistics['errors']] (an
    empty list when the key is not there yet) one record with the URL, the
    name of the error's class, its message and the traceback, logs the
    error and ends with [continue]: no entry is written, the URL is not
    marked visited, no further call is made for it, and the loop goes on
    with the iterations that are left. *)
Theorem C8_transport_error_recorded s url s1 e w :
  select_url cfg s = (Val url, s1) ->
  browser_get (world s1) (first_request url) = (inr e, w) ->
  is_transport_error e = true ->
  exists s',
    iteration cfg s = (Continue, s')
    /\ errors (statistics s')
       = Some (default [] (errors (statistics s))
               ++ [mkError (Some url) (exc_type e) (exc_str e)
                           (exc_traceback e)])
    /\ URLs (statistics s') = URLs (statistics s)
    /\ crawler s' = crawler s1
    /\ trace s'
       = trace s1
         ++ [EvGet (first_request url);
             EvLog ERROR ("ERROR: " +:+ url +:+ " -> " +:+ exc_str e)]
    /\ (should_continue (crawler s) = true ->
        forall fuel, while_loop cfg (S fuel) s = while_loop cfg fuel s').
Proof. apply first_request_fails. Qed.

(** C9: the flag [cache_headers] of the statistics starts as [False]
    (line 171) and, wherever the loop is cut, it is the flag the loop was
    started with or-ed with "some classification made since returned
    something else than ['-']": a verdict other than ['-'] sets it,
    classifications that all return ['-'] leave it as it was, and a flag
    that is set stays set. *)
Theorem C9_flag_follows_classifications :
  (forall SITE, cache_headers (init_statistics SITE) = false)
  /\ forall fuel s,
       let s' := (while_loop cfg fuel s).2 in
       cache_headers (statistics s')
       = cache_headers (statistics s)
         || existsb signals_cache (new_events s s').
Proof.
  split; [done |]. intros fuel s s'. subst s'.
  destruct (while_loop_flag_follows fuel s) as (evs & Ht & Hflag).
  by rewrite (new_events_app _ _ _ Ht).
Qed.

(** *** The order of the first request and the visited set *)

(** What follows [register] in the body only adds to the trace. *)
Lemma after_register_extends url response :
  preserves extends
    (bind (cache_gate (C:=C) (W:=W) cfg url response)
       (fun cache_status =>
          bind (date_probe cfg url response cache_status)
            (fun _ => break_ (A:=unit)))).
Proof.
  walk_with
    ltac:(first [ apply cache_gate_extends | apply date_probe_extends ])
    ltac:(idtac; one_step solve_extends).
Qed.

Lemma iteration_extends_body s : extends (body cfg s).2 (iteration cfg s).2.
Proof.
  unfold iteration, try_except.
  destruct (body cfg s) as [[[]| | |e] s'] eqn:Hbody; try reflexivity.
  cbn [fst snd]. destruct (exc_class_of e); exec; unfold extends; fields;
    first [ by (exists []; rewrite app_nil_r)
          | by (eexists [_; _]; rewrite <- app_assoc) ].
Qed.

(** The first GET of a URL goes out before the URL is marked visited. *)
Lemma first_request_before_visit s url s1 :
  select_url cfg s = (Val url, s1) ->
  is_visited (crawler s1) url = false
  /\ match browser_get (world s1) (first_request url) with
     | (inl response, _) =>
         exists rest,
           new_events s (iteration cfg s).2
           = [EvLog INFO ("Visiting URL: " +:+ url); EvGet (first_request url)]
             ++ (if truthy_opt (args_url cfg) then []
                 else map EvAddToQueue
                        (get_links (crawler s1) (resp_url response)
                                   (resp_text response)))
             ++ EvAddToVisited url :: rest
     | (inr e, _) =>
         exists rest,
           new_events s (iteration cfg s).2
           = [EvLog INFO ("Visiting URL: " +:+ url); EvGet (first_request url)]
             ++ rest
           /\ existsb is_add_to_visited rest = false
           /\ crawler (iteration cfg s).2 = crawler s1
     end.
Proof.
  intros Hsel.
  destruct (select_url_Val _ _ _ Hsel) as (c & _ & Hvisited & Hs1).
  assert (trace s1 = trace s ++ [EvLog INFO ("Visiting URL: " +:+ url)])
    as Ht1 by (by rewrite Hs1).
  assert (crawler s1 = c) as Hc1 by (by rewrite Hs1).
  split; [by rewrite Hc1 |].
  destruct (browser_get (world s1) (first_request url)) as [[response|e] w]
    eqn:Hget.
  - pose proof (fetch1_answered _ _ _ _ Hget) as Hfetch.
    set (s2 := set_world w (add_event (EvGet (first_request url)) s1)) in *.
    destruct (register_spec s2 url response)
      as (s3 & Hreg & _ & _ & _ & _ & _ & _ & Ht3).
    cbv zeta in Hreg.
    set (url' := if String.eqb (resp_url response) url then url
                 else resp_url response) in *.
    destruct (after_register_extends url' response s3) as (evs & Hevs).
    destruct (iteration_extends_body s) as (evs' & Hevs').
    assert (body cfg s
            = bind (cache_gate cfg url' response)
                (fun cache_status =>
                   bind (date_probe cfg url' response cache_status)
                     (fun _ => break_)) s3) as Hbody.
    { unfold body. rewrite (bind_Val _ _ _ _ _ Hsel).
      rewrite (bind_Val _ _ _ _ _ Hfetch). by rewrite (bind_Val _ _ _ _ _ Hreg). }
    rewrite Hbody, Hevs, Ht3 in Hevs'. unfold s2 in Hevs'. fields_in Hevs'.
    rewrite Ht1 in Hevs'.
    eexists. apply new_events_app. rewrite Hevs'.
    rewrite <- !app_assoc. cbn [app]. reflexivity.
  - set (s2 := set_world w (add_event (EvGet (first_request url)) s1)).
    destruct (is_transport_error e) eqn:He.
    + destruct (first_request_fails s url s1 e w Hsel Hget He)
        as (s' & -> & _ & _ & Hcr & Ht & _).
      cbn [snd]. eexists. split; [| split; [| exact Hcr]].
      * apply new_events_app. rewrite Ht, Ht1, <- app_assoc. reflexivity.
      * reflexivity.
    + assert (body cfg s = (Raise e, s2)) as Hbody.
      { unfold body. rewrite (bind_Val _ _ _ _ _ Hsel).
        apply bind_Raise. unfold fetch1. exec. by rewrite Hget, He. }
      unfold iteration, try_except. rewrite Hbody. unfold s2.
      destruct (exc_class_of e); exec; eexists;
        (split; [apply new_events_app; fields; rewrite Ht1, <- ?app_assoc;
                 reflexivity |]);
        done.
Qed.

(** A URL the queue yields and the visited set already holds is skipped:
    the iteration ends with [continue] and has called nothing. *)
Lemma visited_url_skipped s url c :
  get_url_from_queue (crawler s) = (Some url, c) ->
  is_visited c url = true ->
  (iteration cfg s).1 = Continue
  /\ new_events s (iteration cfg s).2 = [].
Proof.
  intros Hq Hv.
  set (s' := set_vars (mkLocals (Some url) (l_response2 (vars s))
                                (l_cache_status2 (vars s)))
               (set_crawler c s)).
  assert (select_url cfg s = (Continue, s')) as Hsel.
  { unfold select_url. exec. rewrite Hq. exec. by rewrite Hv. }
  assert (iteration cfg s = (Continue, s')) as ->.
  { apply iteration_of_body; [| done].
    unfold body. by rewrite (bind_Continue _ _ _ _ Hsel). }
  split; [done |]. apply new_events_app. unfold s'. fields.
  by rewrite app_nil_r.
Qed.

(** C6, as the code has it. For every URL the loop goes on to request,
    the URL is not in the visited set when its first GET is issued: the
    iteration has logged the visit and made no other call. The URL is added
    to the visited set once that request has returned a response, after the
    links of the page are queued; when the request raises instead, the
    iteration adds nothing to the visited set. A URL that is in the visited
    set when the queue yields it is skipped without any call. *)
Theorem C6_visited_after_first_response s :
  (forall url s1,
     select_url cfg s = (Val url, s1) ->
     is_visited (crawler s1) url = false
     /\ match browser_get (world s1) (first_request url) with
        | (inl response, _) =>
            exists rest,
              new_events s (iteration cfg s).2
              = [EvLog INFO ("Visiting URL: " +:+ url);
                 EvGet (first_request url)]
                ++ (if truthy_opt (args_url cfg) then []
                    else map EvAddToQueue
                           (get_links (crawler s1) (resp_url response)
                                      (resp_text response)))
                ++ EvAddToVisited url :: rest
        | (inr e, _) =>
            exists rest,
              new_events s (iteration cfg s).2
              = [EvLog INFO ("Visiting URL: " +:+ url);
                 EvGet (first_request url)]
                ++ rest
              /\ existsb is_add_to_visited rest = false
              /\ crawler (iteration cfg s).2 = crawler s1
        end)
  /\ (forall url c,
        get_url_from_queue (crawler s) = (Some url, c) ->
        is_visited c url = true ->
        (iteration cfg s).1 = Continue
        /\ new_events s (iteration cfg s).2 = []).
Proof.
  split.
  - intros url s1. apply first_request_before_visit.
  - intros url c. apply visited_url_skipped.
Qed.

(** ** More on the loop *)

(** *** No exception leaves the loop *)




(** *** The first request raises something else than a transport error *)

(** A [KeyboardInterrupt] during the first request of a URL ends the loop
    at once: nothing is recorded, the URL is not marked visited, and the
    loop is over whatever the queue still holds. *)
Theorem interrupt_ends_the_loop s url s1 e w :
  select_url cfg s = (Val url, s1) ->
  browser_get (world s1) (first_request url) = (inr e, w) ->
  exc_class_of e = KeyboardInterrupt ->
  exists s',
    iteration cfg s = (Break, s')
    /\ statistics s' = statistics s
    /\ crawler s' = crawler s1
    /\ trace s' = trace s1 ++ [EvGet (first_request url)]
    /\ (should_continue (crawler s) = true ->
        forall fuel, while_loop cfg (S fuel) s = (Finished, s')).
Proof.
  intros Hsel Hget Hki.
  set (s' := set_world w (add_event (EvGet (first_request url)) s1)).
  assert (is_transport_error e = false) as He
    by (unfold is_transport_error; by rewrite Hki).
  assert (body cfg s = (Raise e, s')) as Hbody.
  { unfold body. rewrite (bind_Val _ _ _ _ _ Hsel).
    apply bind_Raise. unfold fetch1. exec. by rewrite Hget, He. }
  assert (iteration cfg s = (Break, s')) as Hit.
  { unfold iteration, try_except. by rewrite Hbody, Hki. }
  exists s'. split; [done |].
  apply select_url_Val in Hsel as (c & _ & _ & Hs1).
  split; [| split; [| split]]; try (unfold s'; by rewrite Hs1).
  intros Hgo fuel. cbn [while_loop]. by rewrite Hgo, Hit.
Qed.

(** Any other exception than the six transport errors and
    [KeyboardInterrupt] raised by the first request is handled by the outer
    [except]: the message and the traceback are logged, one record is added
    to the errors, the URL is not marked visited, and the loop goes on. *)
Theorem other_exception_recorded s url s1 e w :
  select_url cfg s = (Val url, s1) ->
  browser_get (world s1) (first_request url) = (inr e, w) ->
  exc_class_of e = OtherException ->
  exists s',
    iteration cfg s = (Val tt, s')
    /\ errors (statistics s')
       = Some (error_list (statistics s)
               ++ [mkError (Some url) (exc_type e) (exc_str e)
                           (exc_traceback e)])
    /\ URLs (statistics s') = URLs (statistics s)
    /\ crawler s' = crawler s1
    /\ trace s'
       = trace s1
         ++ [EvGet (first_request url);
             EvLog ERROR ("ERROR: " +:+ url +:+ " -> " +:+ exc_str e);
             EvLog ERROR (exc_traceback e)]
    /\ (should_continue (crawler s) = true ->
        forall fuel, while_loop cfg (S fuel) s = while_loop cfg fuel s').
Proof.
  intros Hsel Hget Hother.
  set (s2 := set_world w (add_event (EvGet (first_request url)) s1)).
  assert (is_transport_error e = false) as He
    by (unfold is_transport_error; by rewrite Hother).
  assert (body cfg s = (Raise e, s2)) as Hbody.
  { unfold body. rewrite (bind_Val _ _ _ _ _ Hsel).
    apply bind_Raise. unfold fetch1. exec. by rewrite Hget, He. }
  apply select_url_Val in Hsel as (c & _ & _ & Hs1).
  assert (l_url (vars s2) = Some url) as Hurl by (unfold s2; by rewrite Hs1).
  set (s' := (iteration cfg s).2).
  assert (iteration cfg s = (Val tt, s')) as Hit.
  { unfold s', iteration, try_except. by rewrite Hbody, Hother. }
  exists s'. split; [done |].
  split; [| split; [| split; [| split]]].
  5: { intros Hgo fuel. cbn [while_loop]. by rewrite Hgo, Hit. }
  all: unfold s', iteration, try_except; rewrite Hbody, Hother; exec;
    rewrite ?Hurl; unfold s2, error_list; fields; rewrite <- ?app_assoc;
    cbn [app str_of_url]; rewrite ?Hs1; unfold selected; fields; done.
Qed.

(** *** A URL that does not get cached *)

Lemma timeline_app (l1 l2 : list event) :
  timeline (l1 ++ l2) = timeline l1 ++ timeline l2.
Proof. apply List.filter_app. Qed.

Lemma timeline_queue (links : list string) :
  timeline (map EvAddToQueue links) = [].
Proof. by induction links. Qed.

(** The state from which [cache_gate] runs when the first request is
    answered: the response's final URL is the URL from there on, that URL
    and the one requested are marked visited, and nothing but the log
    message, the request, the queueing and the marking has happened. *)
Lemma body_up_to_cache_gate s url s1 response w :
  select_url cfg s = (Val url, s1) ->
  browser_get (world s1) (first_request url) = (inl response, w) ->
  exists s3 evs,
    body cfg s
    = bind (cache_gate cfg (resp_url response) response)
        (fun cache_status =>
           bind (date_probe cfg (resp_url response) response cache_status)
             (fun _ => break_)) s3
    /\ up_to_date_probe cfg s
       = bind (cache_gate cfg (resp_url response) response)
           (fun cache_status => ret (resp_url response, response, cache_status))
           s3
    /\ world s3 = w
    /\ statistics s3 = statistics s
    /\ network s3
       = <[resp_url response := {[ "request1" := exchange_of response ]}]>
           (network s)
    /\ l_url (vars s3) = Some (resp_url response)
    /\ trace s3 = trace s ++ evs
    /\ timeline evs = [EvGet (first_request url)]
    /\ EvAddToVisited url ∈ evs
    /\ EvAddToVisited (resp_url response) ∈ evs.
Proof.
  intros Hsel Hget.
  pose proof (fetch1_answered _ _ _ _ Hget) as Hfetch.
  set (s2 := set_world w (add_event (EvGet (first_request url)) s1)) in *.
  destruct (register_spec s2 url response)
    as (s3 & Hreg & Hw & Hst & Hnet & _ & _ & Hurl & Ht3).
  cbv zeta in Hreg, Hnet, Hurl.
  assert ((if String.eqb (resp_url response) url then url
           else resp_url response) = resp_url response) as Hfinal
    by (by destruct (String.eqb_spec (resp_url response) url)).
  rewrite Hfinal in Hreg, Hnet, Hurl.
  destruct (select_url_Val _ _ _ Hsel) as (c & _ & _ & Hs1).
  set (queued := if truthy_opt (args_url cfg) then []
                 else map EvAddToQueue
                        (get_links (crawler s2) (resp_url response)
                                   (resp_text response))) in *.
  set (redirected := if String.eqb (resp_url response) url then []
                     else [EvAddToVisited (resp_url response)]) in *.
  exists s3,
    ([EvLog INFO ("Visiting URL: " +:+ url); EvGet (first_request url)]
     ++ queued ++ EvAddToVisited url :: redirected).
  split; [| split].
  { unfold body. rewrite (bind_Val _ _ _ _ _ Hsel).
    rewrite (bind_Val _ _ _ _ _ Hfetch). by rewrite (bind_Val _ _ _ _ _ Hreg). }
  { unfold up_to_date_probe. rewrite (bind_Val _ _ _ _ _ Hsel).
    rewrite (bind_Val _ _ _ _ _ Hfetch). by rewrite (bind_Val _ _ _ _ _ Hreg). }
  assert (l_url (vars s2) = Some url) as Hurl2
    by (unfold s2; by rewrite Hs1).
  assert (trace s2 = trace s ++ [EvLog INFO ("Visiting URL: " +:+ url);
                                 EvGet (first_request url)]) as Ht2.
  { unfold s2. fields. rewrite Hs1. unfold selected. fields.
    by rewrite <- app_assoc. }
  assert (statistics s2 = statistics s /\ network s2 = network s /\ world s2 = w)
    as (Hst2 & Hn2 & Hw2) by (unfold s2; by rewrite Hs1).
  rewrite Hw, Hst, Hnet, Ht3, Ht2, Hst2, Hn2, Hw2, <- !app_assoc.
  split; [done |]. split; [done |]. split; [done |].
  split; [by apply Hurl |]. split; [reflexivity |].
  split; [| split].
  - rewrite !timeline_app.
    assert (timeline queued = []) as ->.
    { unfold queued. destruct (truthy_opt (args_url cfg)); [done |].
      apply timeline_queue. }
    unfold redirected. by destruct (String.eqb (resp_url response) url).
  - apply elem_of_app. right. apply elem_of_app. right.
    apply list_elem_of_here.
  - apply elem_of_app. right. apply elem_of_app. right. unfold redirected.
    destruct (String.eqb_spec (resp_url response) url) as [-> | Hne].
    + apply list_elem_of_here.
    + apply list_elem_of_further, list_elem_of_here.
Qed.

(** A verdict that is neither HIT nor MISS gives the URL up: after the one
    request the iteration ends with [continue], the URL is marked visited,
    no entry is written, the flag is raised unless the verdict is ['-'],
    and the last thing logged is that the response does not get cached. *)
Theorem other_verdict_gives_up s url s1 response w :
  let verdict := cache_headers_heuristics cfg (resp_headers response) in
  select_url cfg s = (Val url, s1) ->
  browser_get (world s1) (first_request url) = (inl response, w) ->
  verdict <> "HIT" ->
  verdict <> "MISS" ->
  exists s',
    iteration cfg s = (Continue, s')
    /\ URLs (statistics s') = URLs (statistics s)
    /\ cache_headers (statistics s')
       = cache_headers (statistics s) || negb (String.eqb verdict "-")
    /\ timeline (new_events s s') = [EvGet (first_request url)]
    /\ EvAddToVisited url ∈ new_events s s'
    /\ last (trace s')
       = Some (EvLog INFO
                 ("The response does not get cached -> cache_status = "
                  +:+ verdict)).
Proof.
  intros verdict Hsel Hget Hnohit Hnomiss.
  destruct (body_up_to_cache_gate s url s1 response w Hsel Hget)
    as (s3 & evs & Hbody & _ & _ & Hst & _ & _ & Ht3 & Htl & Hvis & _).
  set (s' := (iteration cfg s).2).
  assert (body cfg s = (Continue, s')
          /\ statistics s'
             = mkStatistics (site (statistics s))
                 (cache_headers (statistics s) || negb (String.eqb verdict "-"))
                 (tested (statistics s)) (URLs (statistics s))
                 (errors (statistics s))
          /\ trace s'
             = trace s ++ evs
               ++ [EvClassify (resp_headers response) verdict;
                   EvLog INFO
                     ("The response does not get cached -> cache_status = "
                      +:+ verdict)]) as (Hb & Hst' & Ht').
  { unfold s', iteration, try_except. rewrite Hbody.
    unfold cache_gate. exec. fold verdict.
    apply String.eqb_neq in Hnohit, Hnomiss.
    destruct (String.eqb verdict "-") eqn:Hunknown; cbn [negb]; exec;
      rewrite Hnohit, Hnomiss; exec; rewrite Hst, Ht3, <- !app_assoc;
      repeat split; try done.
    - rewrite orb_false_r. by destruct (statistics s).
    - by rewrite orb_true_r. }
  exists s'. split; [by apply iteration_of_body |].
  rewrite Hst'. cbn [URLs cache_headers]. split; [done |]. split; [done |].
  rewrite (new_events_app _ _ _ Ht'), timeline_app, Htl. split; [done |].
  split; [apply elem_of_app; by left |].
  rewrite Ht', !last_app. reflexivity.
Qed.

(** A MISS that the second of the two confirmation requests does not turn
    into a HIT gives the URL up: the iteration waits 1 s, asks again, waits
    2 s, asks again, and ends with [continue]; no entry is written. *)
Theorem unconfirmed_miss_gives_up s url s1 response w ra wa rb wb :
  let final := resp_url response in
  let verdict2 := cache_headers_heuristics cfg (resp_headers rb) in
  select_url cfg s = (Val url, s1) ->
  browser_get (world s1) (first_request url) = (inl response, w) ->
  cache_headers_heuristics cfg (resp_headers response) = "MISS" ->
  browser_get w (plain_request final) = (inl ra, wa) ->
  browser_get wa (plain_request final) = (inl rb, wb) ->
  verdict2 <> "HIT" ->
  exists s',
    iteration cfg s = (Continue, s')
    /\ URLs (statistics s') = URLs (statistics s)
    /\ cache_headers (statistics s') = true
    /\ timeline (new_events s s')
       = [EvGet (first_request url);
          EvSleep 1000; EvGet (plain_request final);
          EvSleep 2000; EvGet (plain_request final)]
    /\ last (trace s')
       = Some (EvLog INFO
                 ("The response does not get cached -> cache_status = "
                  +:+ "MISS" +:+ "/" +:+ verdict2)).
Proof.
  intros final verdict2 Hsel Hget Hmiss Ha Hb Hnohit.
  destruct (body_up_to_cache_gate s url s1 response w Hsel Hget)
    as (s3 & evs & Hbody & _ & Hw & Hst & Hnet & _ & Ht3 & Htl & _ & _).
  fold final in Hbody, Hnet.
  set (s' := (iteration cfg s).2).
  assert (body cfg s = (Continue, s')
          /\ URLs (statistics s') = URLs (statistics s)
          /\ cache_headers (statistics s') = true
          /\ trace s'
             = trace s ++ evs
               ++ [EvClassify (resp_headers response) "MISS";
                   EvSleep 1000; EvGet (plain_request final);
                   EvSleep 2000; EvGet (plain_request final);
                   EvClassify (resp_headers rb) verdict2;
                   EvLog INFO
                     ("The response does not get cached -> cache_status = "
                      +:+ "MISS" +:+ "/" +:+ verdict2)])
    as (Hbd & HURLs & Hflag & Ht').
  { unfold s', iteration, try_except. rewrite Hbody.
    unfold cache_gate. exec. rewrite Hmiss. literals. exec.
    rewrite Hw, Ha. exec. rewrite Hb. exec.
    rewrite Hnet, lookup_insert_eq. exec. fold verdict2.
    apply String.eqb_neq in Hnohit.
    destruct (String.eqb verdict2 "-") eqn:Hunknown; cbn [negb]; exec;
      rewrite Hnohit; exec; rewrite Hst, Ht3, <- !app_assoc;
      repeat split; done. }
  exists s'. split; [by apply iteration_of_body |].
  split; [done |]. split; [done |].
  rewrite (new_events_app _ _ _ Ht'), timeline_app, Htl. split; [done |].
  rewrite Ht', !last_app. reflexivity.
Qed.

(** *** A URL that gets cached *)

(** Results are kept under the URL the first response came from: when
    [date_probe] is entered, [url] is [response.url], that URL has been
    marked visited and [network] has its entry. *)
Theorem results_keyed_by_final_url s url response cache_status s4 :
  up_to_date_probe cfg s = (Val (url, response, cache_status), s4) ->
  url = resp_url response
  /\ EvAddToVisited (resp_url response) ∈ new_events s s4
  /\ is_Some (network s4 !! resp_url response).
Proof.
  intros Hup.
  destruct (up_to_date_probe_Val _ _ _ _ _ Hup) as (_ & _ & (d & Hd & _) & _).
  destruct (up_to_date_probe_inv _ _ _ _ _ Hup)
    as (url0 & s1 & s2 & s3 & Hsel & Hfetch & Hreg & Hgate).
  destruct (fetch1_Val _ _ _ _ Hfetch) as (w & Hget & _).
  destruct (body_up_to_cache_gate s url0 s1 response w Hsel Hget)
    as (s3' & evs & _ & Hup' & _ & _ & _ & _ & Ht3 & _ & _ & Hvis).
  rewrite Hup in Hup'. symmetry in Hup'.
  apply bind_Val_inv in Hup' as (cs & s4' & Hgate' & Hret).
  injection Hret as Hfinal -> ->. rewrite <- Hfinal in *.
  split; [done |]. split; [| rewrite Hd; by eexists].
  destruct (cache_gate_extends (resp_url response) response s3') as (evs' & Ht4).
  rewrite Hgate' in Ht4. cbn [snd] in Ht4. rewrite Ht3, <- app_assoc in Ht4.
  rewrite (new_events_app _ _ _ Ht4). apply elem_of_app. by left.
Qed.

(** The [break] of line 397: once the cycle of a URL has gone through
    [date_probe] without a request raising, the loop is over, whatever the
    queue still holds. *)
Theorem completed_cycle_ends_the_loop s url response cache_status s4 s' :
  up_to_date_probe cfg s = (Val (url, response, cache_status), s4) ->
  date_probe cfg url response cache_status s4 = (Val tt, s') ->
  should_continue (crawler s) = true ->
  forall fuel, while_loop cfg (S fuel) s = (Finished, s').
Proof.
  intros Hup Hprobe Hgo fuel. cbn [while_loop].
  by rewrite Hgo, (iteration_reached _ _ _ _ _ _ Hup Hprobe).
Qed.

(** The request of the second look raises. *)
Lemma date_probe_second_raises s url response cache_status d d1 e w :
  network s !! url = Some d ->
  d !! "response2" = None ->
  (cache_status = "HIT"
   \/ cache_status = "MISS" /\ l_cache_status2 (vars s) = Some "HIT") ->
  ci_getitem "Date" (resp_headers response) = Some d1 ->
  browser_get (world s) (plain_request url) = (inr e, w) ->
  exists s',
    date_probe cfg url response cache_status s = (Raise e, s')
    /\ l_url (vars s') = l_url (vars s)
    /\ errors (statistics s') = errors (statistics s)
    /\ URLs (statistics s')
       = <[url := {[ "cache_status" := VStr "HIT"; "date" := VList [d1];
                     "cache" := VList (identify (resp_headers response)) ]}]>
           (URLs (statistics s))
    /\ trace s'
       = trace s
         ++ [EvLog INFO ("Testing the Date header on " +:+ url);
             EvLog INFO ("Identified cache: " +:+ OKGREEN
                         +:+ String.concat ", " (identify (resp_headers response))
                         +:+ ENDC);
             EvLog INFO ("Found Date header: " +:+ d1);
             EvSleep 1500;
             EvGet (plain_request url)].
Proof.
  intros Hd Hno Hcs Hd1 Hget.
  assert (ci_contains "Date" (resp_headers response) = true) as Hc1
    by (apply ci_contains_getitem; eauto).
  unfold date_probe. unfold bind at 1.
  rewrite (open_entry_spec _ _ _ _ _ Hd Hno Hcs). rewrite Hc1.
  unfold temporal_check, opened, fresh_entry.
  run_with ltac:(first [rewrite Hd1 | rewrite Hget]).
  eexists. split; [reflexivity |]. tidy. done.
Qed.

(** An exception other than [KeyboardInterrupt] raised by the request of
    the second look leaves the entry as far as it was filled, with the
    first Date and the providers; the error is recorded under the URL and
    the loop goes on with the next iteration: the [break] of line 397 is
    not reached. *)
Theorem second_look_failure_keeps_entry
    s url response cache_status s4 d1 e w :
  up_to_date_probe cfg s = (Val (url, response, cache_status), s4) ->
  ci_getitem "Date" (resp_headers response) = Some d1 ->
  browser_get (world s4) (plain_request url) = (inr e, w) ->
  exc_class_of e <> KeyboardInterrupt ->
  exists s',
    iteration cfg s = (Val tt, s')
    /\ URLs (statistics s') !! url
       = Some {[ "cache_status" := VStr "HIT"; "date" := VList [d1];
                 "cache" := VList (identify (resp_headers response)) ]}
    /\ errors (statistics s')
       = Some (error_list (statistics s4)
               ++ [mkError (Some url) (exc_type e) (exc_str e)
                           (exc_traceback e)])
    /\ (should_continue (crawler s) = true ->
        forall fuel, while_loop cfg (S fuel) s = while_loop cfg fuel s').
Proof.
  intros Hup Hd1 Hget Hnoki.
  destruct (up_to_date_probe_Val _ _ _ _ _ Hup)
    as (_ & Hurl & (d & Hd & Hno) & Hcs).
  destruct (date_probe_second_raises s4 url response cache_status d d1 e w
              Hd Hno Hcs Hd1 Hget)
    as (s5 & Hprobe & Hurl5 & Herr5 & HURLs5 & _).
  assert (body cfg s = (Raise e, s5)) as Hbody.
  { rewrite body_split. rewrite (bind_Val _ _ _ _ _ Hup). cbn [fst snd].
    by apply bind_Raise. }
  rewrite Hurl in Hurl5.
  set (s' := (iteration cfg s).2).
  assert (iteration cfg s = (Val tt, s')
          /\ URLs (statistics s') = URLs (statistics s5)
          /\ errors (statistics s')
             = Some (error_list (statistics s5)
                     ++ [mkError (Some url) (exc_type e) (exc_str e)
                                 (exc_traceback e)])) as (Hit & HURLs & Herr).
  { unfold s', iteration, try_except. rewrite Hbody.
    destruct (exc_class_of e); try done; exec; by rewrite Hurl5. }
  exists s'. split; [done |].
  split; [by rewrite HURLs, HURLs5, lookup_insert_eq |].
  split; [rewrite Herr; unfold error_list; by rewrite Herr5 |].
  intros Hgo fuel. cbn [while_loop]. by rewrite Hgo, Hit.
Qed.

(** The cache-busted response has no Date. *)
Lemma date_probe_busted_without_date s url response cache_status d d1 r2 w2 d2
    _url _headers _cookies w3 r3 w4 :
  let vary := if ci_contains "Vary" (resp_headers response)
              then default "" (ci_getitem "Vary" (resp_headers response))
              else "" in
  network s !! url = Some d ->
  d !! "response2" = None ->
  (cache_status = "HIT"
   \/ cache_status = "MISS" /\ l_cache_status2 (vars s) = Some "HIT") ->
  ci_getitem "Date" (resp_headers response) = Some d1 ->
  browser_get (world s) (plain_request url) = (inl r2, w2) ->
  ci_getitem "Date" (resp_headers r2) = Some d2 ->
  cache_bust_request w2 url headers (cookies cfg) vary
  = ((_url, _headers, _cookies), w3) ->
  browser_get w3 (busted_request _url _headers _cookies) = (inl r3, w4) ->
  ci_contains "Date" (resp_headers r3) = false ->
  exists s',
    date_probe cfg url response cache_status s = (Val tt, s')
    /\ URLs (statistics s')
       = <[url := {[ "cache_status" := VStr "HIT"; "date" := VList [d1; d2];
                     "cache" := VList (identify (resp_headers response)) ]}]>
           (URLs (statistics s))
    /\ last (trace s') = Some (EvGet (busted_request _url _headers _cookies)).
Proof.
  intros vary Hd Hno Hcs Hd1 Hget2 Hd2 Hbust Hget3 Hno3.
  assert (ci_contains "Date" (resp_headers response) = true) as Hc1
    by (apply ci_contains_getitem; eauto).
  assert (ci_contains "Date" (resp_headers r2) = true) as Hc2
    by (apply ci_contains_getitem; eauto).
  unfold date_probe. unfold bind at 1.
  rewrite (open_entry_spec _ _ _ _ _ Hd Hno Hcs). rewrite Hc1.
  unfold temporal_check, cache_bust_probe, opened, fresh_entry.
  fold vary.
  run_with ltac:(first [ rewrite Hd1 | rewrite Hget2 | rewrite Hc2
                       | rewrite Hd2 ]).
  destruct (String.eqb d1 d2); cbn [negb];
    run_with ltac:(first [ rewrite Hd1 | rewrite Hbust | rewrite Hget3
                         | rewrite Hno3 ]);
    eexists; (split; [reflexivity |]); tidy;
    (split; [done | by rewrite !last_app]).
Qed.

(** The cache-busted response has no Date header: the entry keeps the two
    Dates seen before and the iteration ends with the [break] of line
    397. *)
Theorem busted_response_without_date
    s url response cache_status s4 d1 r2 w2 d2
    _url _headers _cookies w3 r3 w4 :
  let vary := if ci_contains "Vary" (resp_headers response)
              then default "" (ci_getitem "Vary" (resp_headers response))
              else "" in
  up_to_date_probe cfg s = (Val (url, response, cache_status), s4) ->
  ci_getitem "Date" (resp_headers response) = Some d1 ->
  browser_get (world s4) (plain_request url) = (inl r2, w2) ->
  ci_getitem "Date" (resp_headers r2) = Some d2 ->
  cache_bust_request w2 url headers (cookies cfg) vary
  = ((_url, _headers, _cookies), w3) ->
  browser_get w3 (busted_request _url _headers _cookies) = (inl r3, w4) ->
  ci_contains "Date" (resp_headers r3) = false ->
  exists s',
    iteration cfg s = (Break, s')
    /\ URLs (statistics s') !! url
       = Some {[ "cache_status" := VStr "HIT"; "date" := VList [d1; d2];
                 "cache" := VList (identify (resp_headers response)) ]}
    /\ last (trace s') = Some (EvGet (busted_request _url _headers _cookies)).
Proof.
  intros vary Hup Hd1 Hget2 Hd2 Hbust Hget3 Hno3.
  destruct (up_to_date_probe_Val _ _ _ _ _ Hup)
    as (_ & _ & (d & Hd & Hno) & Hcs).
  destruct (date_probe_busted_without_date s4 url response cache_status d d1
              r2 w2 d2 _url _headers _cookies w3 r3 w4
              Hd Hno Hcs Hd1 Hget2 Hd2 Hbust Hget3 Hno3)
    as (s' & Hprobe & HURLs & Hlast).
  exists s'. split; [by apply (iteration_reached _ _ _ _ _ _ Hup) |].
  split; [by rewrite HURLs, lookup_insert_eq | done].
Qed.

(** *** What the loop leaves alone *)

#[local] Instance keeps_record_refl : Reflexive (keeps_record (C:=C) (W:=W)).
Proof.
  intros s. split; [done |]. split; [done |]. exists []. by rewrite app_nil_r.
Qed.

#[local] Instance keeps_record_trans : Transitive (keeps_record (C:=C) (W:=W)).
Proof.
  intros s1 s2 s3 (Hs1 & Ht1 & n1 & He1) (Hs2 & Ht2 & n2 & He2).
  split; [by rewrite Hs2 |]. split; [by rewrite Ht2 |].
  exists (n1 ++ n2). by rewrite He2, He1, app_assoc.
Qed.

Ltac solve_keeps_record :=
  unfold keeps_record, error_list; simpl;
  (split; [reflexivity |]); (split; [reflexivity |]);
  first [ by (exists []; rewrite app_nil_r) | by eexists [_] ].

Lemma errors_append_keeps_record r :
  preserves keeps_record (errors_append (C:=C) (W:=W) r).
Proof.
  intros s. unfold errors_append, keeps_record, error_list. simpl.
  split; [done |]. split; [done |]. exists [r].
  by destruct (errors (statistics s)).
Qed.

Lemma iteration_keeps_record :
  preserves keeps_record (iteration (C:=C) (W:=W) cfg).
Proof.
  unfold iteration, body, select_url, fetch1, register, cache_gate, date_probe,
    open_entry, temporal_check, cache_bust_probe, classify,
    set_cache_headers_true.
  walk ltac:(first [ apply errors_append_keeps_record
                    | one_step solve_keeps_record ]).
Qed.

Lemma while_loop_keeps_record fuel s : keeps_record s (while_loop cfg fuel s).2.
Proof.
  revert s. induction fuel as [|fuel IH]; intros s; simpl; [reflexivity |].
  destruct (should_continue (crawler s)); [| reflexivity].
  pose proof (iteration_keeps_record s) as Hit.
  destruct (iteration cfg s) as [[[]| | |e] s']; simpl in *;
    try done; (etransitivity; [exact Hit | apply IH]).
Qed.

(** However long the loop runs, it never writes [statistics['site']] nor
    [statistics['tested']] (which stays [False] from line 172 on), and it
    only ever adds to the end of the errors: the records that were there
    stay, in their order. *)
Theorem loop_keeps_site_tested_and_errors fuel s :
  let s' := (while_loop cfg fuel s).2 in
  site (statistics s') = site (statistics s)
  /\ tested (statistics s') = tested (statistics s)
  /\ exists new,
       error_list (statistics s') = error_list (statistics s) ++ new.
Proof. apply while_loop_keeps_record. Qed.

(** *** Entries are written where they were announced *)

Section WholeLoop.

Variable R : state C W -> state C W -> Prop.
Context `{!Reflexive R} `{!Transitive R}.

(** What every iteration preserves, the loop preserves. *)
Lemma while_loop_preserves :
  preserves R (iteration (C:=C) (W:=W) cfg) ->
  forall fuel s, R s (while_loop cfg fuel s).2.
Proof.
  intros Hiter fuel. induction fuel as [|fuel IH]; intros s; simpl;
    [reflexivity |].
  destruct (should_continue (crawler s)); [| reflexivity].
  pose proof (Hiter s) as Hit.
  destruct (iteration cfg s) as [[[]| | |e] s']; simpl in *;
    try done; (etransitivity; [exact Hit | apply IH]).
Qed.

End WholeLoop.

#[local] Instance writes_announced_refl :
  Reflexive (writes_announced (C:=C) (W:=W)).
Proof. intros s. exists []. by rewrite app_nil_r. Qed.

#[local] Instance writes_announced_trans :
  Transitive (writes_announced (C:=C) (W:=W)).
Proof.
  intros s1 s2 s3 (e1 & Ht1 & Hk1) (e2 & Ht2 & Hk2). exists (e1 ++ e2). split.
  - by rewrite Ht2, Ht1, app_assoc.
  - intros k Hk. apply not_elem_of_app in Hk as [Hk1' Hk2'].
    by rewrite Hk2, Hk1.
Qed.

#[local] Instance only_entry_refl url : Reflexive (only_entry (C:=C) (W:=W) url).
Proof. by intros s k Hk. Qed.

#[local] Instance only_entry_trans url :
  Transitive (only_entry (C:=C) (W:=W) url).
Proof. intros s1 s2 s3 H1 H2 k Hk. by rewrite H2, H1. Qed.

(** A statement that writes no entry announces none. *)
Lemma quiet_writes_announced {A} (c : M C W A) :
  preserves same_URLs c -> preserves extends c -> preserves writes_announced c.
Proof.
  intros Hs He s. destruct (He s) as [evs Ht]. exists evs. split; [done |].
  intros k _. by rewrite (Hs s).
Qed.

Ltac solve_only_entry :=
  unfold only_entry; simpl; intros ? ?;
  first [ reflexivity | by rewrite lookup_insert_ne by congruence ].

Lemma date_probe_only_entry url r cs :
  preserves (only_entry url) (date_probe (C:=C) (W:=W) cfg url r cs).
Proof.
  unfold date_probe, open_entry, temporal_check, cache_bust_probe.
  walk ltac:(idtac; one_step solve_only_entry).
Qed.

Lemma date_probe_announces url r cs s :
  exists rest,
    trace (date_probe cfg url r cs s).2 = trace s ++ announces url :: rest.
Proof.
  unfold date_probe, open_entry. rewrite bind_assoc.
  rewrite (bind_Val _ _ s tt (add_event (announces url) s)) by reflexivity.
  match goal with |- context [ (bind ?c ?k ?s0).2 ] =>
    assert (preserves extends (bind c k)) as Hext
  end.
  { walk ltac:(first [ apply temporal_check_extends | extends_leaf ]). }
  destruct (Hext (add_event (announces url) s)) as [rest Hrest].
  exists rest. rewrite Hrest. simpl. by rewrite <- app_assoc.
Qed.

Lemma date_probe_writes_announced url r cs :
  preserves writes_announced (date_probe (C:=C) (W:=W) cfg url r cs).
Proof.
  intros s. destruct (date_probe_announces url r cs s) as [rest Ht].
  exists (announces url :: rest). split; [done |].
  intros k Hk. apply date_probe_only_entry. intros ->. apply Hk. left.
Qed.

Ltac solve_writes_announced :=
  unfold writes_announced; simpl;
  first [ by (exists []; rewrite app_nil_r) | by eexists [_] ].

Lemma iteration_writes_announced :
  preserves writes_announced (iteration (C:=C) (W:=W) cfg).
Proof.
  unfold iteration, body.
  walk_with
    ltac:(first
      [ apply (quiet_writes_announced _ select_url_same_URLs select_url_extends)
      | apply (quiet_writes_announced _ (fetch1_same_URLs _) (fetch1_extends _))
      | apply (quiet_writes_announced _ (register_same_URLs _ _)
                 (register_extends _ _))
      | apply (quiet_writes_announced _ (cache_gate_same_URLs _ _)
                 (cache_gate_extends _ _))
      | apply date_probe_writes_announced ])
    ltac:(idtac; one_step solve_writes_announced).
Qed.

(** However long the loop runs, the entry of a URL in
    [statistics['URLs']] is as it was unless the line "Testing the Date
    header on" that URL was logged in between: no entry is written,
    changed or added to for a URL that was not announced. *)
Theorem entries_written_where_announced fuel s k :
  announces k ∉ new_events s (while_loop cfg fuel s).2 ->
  URLs (statistics (while_loop cfg fuel s).2) !! k = URLs (statistics s) !! k.
Proof.
  destruct (while_loop_preserves writes_announced
              iteration_writes_announced fuel s) as (evs & Ht & Hk).
  rewrite (new_events_app _ _ _ Ht). apply Hk.
Qed.

(** *** The network trace is written for visited URLs *)

#[local] Instance traces_visited_refl :
  Reflexive (traces_visited (C:=C) (W:=W)).
Proof. intros s. exists []. by rewrite app_nil_r. Qed.

#[local] Instance traces_visited_trans :
  Transitive (traces_visited (C:=C) (W:=W)).
Proof.
  intros s1 s2 s3 (e1 & Ht1 & Hk1) (e2 & Ht2 & Hk2). exists (e1 ++ e2). split.
  - by rewrite Ht2, Ht1, app_assoc.
  - intros k Hk. apply not_elem_of_app in Hk as [Hk1' Hk2'].
    by rewrite Hk2, Hk1.
Qed.

#[local] Instance same_network_refl : Reflexive (same_network (C:=C) (W:=W)).
Proof. by intros s. Qed.

#[local] Instance same_network_trans : Transitive (same_network (C:=C) (W:=W)).
Proof. unfold same_network. intros s1 s2 s3 H1 H2. by rewrite H2. Qed.

#[local] Instance only_network_refl url :
  Reflexive (only_network (C:=C) (W:=W) url).
Proof. by intros s k Hk. Qed.

#[local] Instance only_network_trans url :
  Transitive (only_network (C:=C) (W:=W) url).
Proof. intros s1 s2 s3 H1 H2 k Hk. by rewrite H2, H1. Qed.

Ltac solve_same_network := unfold same_network; simpl; reflexivity.

Ltac solve_only_network :=
  unfold only_network; simpl; intros ? ?;
  first [ reflexivity | by rewrite lookup_insert_ne by congruence ].

Lemma select_url_same_network :
  preserves same_network (select_url (C:=C) (W:=W) cfg).
Proof. unfold select_url. walk ltac:(idtac; one_step solve_same_network). Qed.

Lemma fetch1_same_network url :
  preserves same_network (fetch1 (C:=C) (W:=W) url).
Proof. unfold fetch1. walk ltac:(idtac; one_step solve_same_network). Qed.

Lemma cache_gate_only_network url r :
  preserves (only_network url) (cache_gate (C:=C) (W:=W) cfg url r).
Proof.
  unfold cache_gate, classify, set_cache_headers_true.
  walk ltac:(idtac; one_step solve_only_network).
Qed.

Lemma date_probe_only_network url r cs :
  preserves (only_network url) (date_probe (C:=C) (W:=W) cfg url r cs).
Proof.
  unfold date_probe, open_entry, temporal_check, cache_bust_probe.
  walk ltac:(idtac; one_step solve_only_network).
Qed.

(** A statement that leaves [network] alone needs no visit. *)
Lemma quiet_traces_visited {A} (c : M C W A) :
  preserves same_network c -> preserves extends c -> preserves traces_visited c.
Proof.
  intros Hs He s. destruct (He s) as [evs Ht]. exists evs. split; [done |].
  intros k _. by rewrite (Hs s).
Qed.

(** From line 252 on: the URL the rest of the body writes under was
    handed to [add_to_visited] first. *)
Lemma register_then_traces_visited {B} url0 r (k : string -> M C W B) :
  (forall url, preserves (only_network url) (k url)) ->
  (forall url, preserves extends (k url)) ->
  preserves traces_visited (bind (register cfg url0 r) k).
Proof.
  intros Hk He s.
  pose proof (register_spec s url0 r) as Hspec. cbv zeta in Hspec.
  destruct Hspec as (s' & Hreg & _ & _ & Hnet & _ & _ & _ & Ht).
  rewrite (bind_Val _ _ _ _ _ Hreg).
  set (url := if String.eqb (resp_url r) url0 then url0 else resp_url r) in *.
  destruct (He url s') as [evs' Ht'].
  eexists. split.
  { rewrite Ht', Ht, <- app_assoc. reflexivity. }
  intros key Hkey.
  assert (key <> url) as Hne.
  { intros ->. apply Hkey. apply elem_of_app. left. apply elem_of_app. right.
    unfold url. destruct (String.eqb (resp_url r) url0).
    - left.
    - right. left. }
  rewrite (Hk url s' key Hne), Hnet. by rewrite lookup_insert_ne by congruence.
Qed.

Ltac solve_traces_visited :=
  unfold traces_visited; simpl;
  first [ by (exists []; rewrite app_nil_r) | by eexists [_] ].

Lemma iteration_traces_visited :
  preserves traces_visited (iteration (C:=C) (W:=W) cfg).
Proof.
  unfold iteration, body.
  walk_with
    ltac:(first
      [ apply (quiet_traces_visited _ select_url_same_network select_url_extends)
      | apply (quiet_traces_visited _ (fetch1_same_network _) (fetch1_extends _))
      | apply register_then_traces_visited
      | apply cache_gate_only_network
      | apply date_probe_only_network
      | apply cache_gate_extends
      | apply date_probe_extends ])
    ltac:(first [ one_step solve_only_network
                | one_step solve_extends
                | one_step solve_traces_visited ]).
Qed.

(** However long the loop runs, what [network] holds for a URL is as it
    was unless [add_to_visited] was called with that URL in between: the
    trace of the exchanges is written for visited URLs only. *)
Theorem network_written_where_visited fuel s k :
  EvAddToVisited k ∉ new_events s (while_loop cfg fuel s).2 ->
  network (while_loop cfg fuel s).2 !! k = network s !! k.
Proof.
  destruct (while_loop_preserves traces_visited
              iteration_traces_visited fuel s) as (evs & Ht & Hk).
  rewrite (new_events_app _ _ _ Ht). apply Hk.
Qed.

(** *** What is kept as the first exchange *)

#[local] Instance keeps_refl (P : state C W -> Prop) : Reflexive (keeps P).
Proof. intros s HP. exact HP. Qed.

#[local] Instance keeps_trans (P : state C W -> Prop) : Transitive (keeps P).
Proof. unfold keeps. intros s1 s2 s3 H1 H2 HP. auto. Qed.

(** What [network[url]] holds when [date_probe] is entered: the first
    exchange under ['request1'] and nothing under ['response2']. *)
Lemma up_to_date_probe_request1 s url response cache_status s4 :
  up_to_date_probe cfg s = (Val (url, response, cache_status), s4) ->
  exists d,
    network s4 !! url = Some d
    /\ d !! "request1" = Some (exchange_of response)
    /\ d !! "response2" = None.
Proof.
  intros (url0 & s1 & s2 & s3 & Hsel & Hfetch & Hreg & Hgate)%up_to_date_probe_inv.
  destruct (register_spec s2 url0 response)
    as (s3' & Hreg' & _ & _ & Hnet & _).
  rewrite Hreg in Hreg'. injection Hreg' as Hu <-.
  rewrite <- Hu in Hnet.
  apply cache_gate_Val in Hgate as (_ & _ & _ & Hcases).
  destruct Hcases as [(-> & _ & Hn & _)
                     | (-> & ra & wa & rb & d & _ & _ & _ & Hd & Hn & _)].
  - rewrite Hn, Hnet, lookup_insert_eq. eexists. split; [done |].
    by rewrite lookup_singleton_eq, lookup_singleton_ne.
  - rewrite Hn, lookup_insert_eq.
    rewrite Hnet, lookup_insert_eq in Hd. injection Hd as <-.
    eexists. split; [done |].
    by rewrite !lookup_insert_ne, lookup_singleton_eq, lookup_singleton_ne.
Qed.

Ltac solve_keeps_first :=
  unfold keeps, first_is_request1; simpl;
  let d0 := fresh "d" in
  intros (d0 & ? & ? & ? & ?);
  first [ by exists d0
        | simplify_eq; eexists; split; [apply lookup_insert_eq |];
          rewrite !lookup_insert_ne by done; done ].

Lemma handlers_keep_network s :
  network (iteration cfg s).2 = network (body cfg s).2.
Proof.
  unfold iteration, try_except.
  destruct (body cfg s) as [[[]| | |e] s'] eqn:Hbody; try done.
  cbn [fst snd]. destruct (exc_class_of e); exec; done.
Qed.

Lemma then_break_state {A} (c : M C W A) s :
  (bind c (fun _ => break_ (A:=unit)) s).2 = (c s).2.
Proof. unfold bind. by destruct (c s) as [[a| | |e] s1]. Qed.

(** Once a URL is known to get cached, the exchange kept under ['first']
    in its network trace is the first exchange of the URL, the one under
    ['request1'], whichever way the URL got there and however the rest of
    its cycle ends: after a HIT as after a MISS that was confirmed. *)
Theorem first_is_the_first_exchange s url response cache_status s4 :
  up_to_date_probe cfg s = (Val (url, response, cache_status), s4) ->
  first_is_request1 url (exchange_of response) (iteration cfg s).2.
Proof.
  intros Hrun.
  destruct (up_to_date_probe_request1 _ _ _ _ _ Hrun) as (d & Hd & Hreq & Hno).
  destruct (up_to_date_probe_Val _ _ _ _ _ Hrun) as (_ & _ & _ & Hcs).
  assert (first_is_request1 url (exchange_of response) (body cfg s).2) as Hbody.
  { rewrite body_split, (bind_Val _ _ _ _ _ Hrun). cbn [fst snd].
    rewrite then_break_state. unfold date_probe.
    rewrite (bind_Val _ _ _ _ _ (open_entry_spec _ _ _ _ _ Hd Hno Hcs)).
    match goal with |- first_is_request1 _ _ (?c ?s0).2 =>
      assert (preserves (keeps (first_is_request1 url (exchange_of response))) c)
        as Hkeeps
    end.
    { unfold temporal_check, cache_bust_probe.
      walk ltac:(idtac; one_step solve_keeps_first). }
    apply Hkeeps.
    exists (<["first" := exchange_of response]> d). unfold opened. fields.
    rewrite lookup_insert_eq. split; [done |].
    by rewrite lookup_insert_ne, lookup_insert_eq, lookup_insert_ne. }
  destruct Hbody as (d' & Hd' & Hfacts). exists d'.
  by rewrite handlers_keep_network.
Qed.

(** *** A run on one URL queues nothing *)

#[local] Instance queues_nothing_refl :
  Reflexive (queues_nothing (C:=C) (W:=W)).
Proof.
  intros s. exists []. split; [by rewrite app_nil_r |].
  intros link Hin. by apply elem_of_nil in Hin.
Qed.

#[local] Instance queues_nothing_trans :
  Transitive (queues_nothing (C:=C) (W:=W)).
Proof.
  intros s1 s2 s3 (e1 & Ht1 & Hk1) (e2 & Ht2 & Hk2). exists (e1 ++ e2). split.
  - by rewrite Ht2, Ht1, app_assoc.
  - intros link [Hin | Hin]%elem_of_app; [by apply (Hk1 link) | by apply (Hk2 link)].
Qed.

Ltac solve_queues_nothing :=
  unfold queues_nothing; simpl;
  first [ exists []; split; [by rewrite app_nil_r |];
          intros ? ?%elem_of_nil; done
        | eexists [_]; split; [reflexivity |];
          intros ? ?%list_elem_of_singleton; discriminate ].

Lemma iteration_queues_nothing :
  truthy_opt (args_url cfg) = true ->
  preserves queues_nothing (iteration (C:=C) (W:=W) cfg).
Proof.
  intros Hurl.
  unfold iteration, body, select_url, fetch1, register, cache_gate, date_probe,
    open_entry, temporal_check, cache_bust_probe, classify,
    set_cache_headers_true.
  rewrite Hurl. simpl negb. cbv iota.
  walk ltac:(idtac; one_step solve_queues_nothing).
Qed.

(** Started with [--url], the loop never calls [add_to_queue]: the links
    of the pages are neither looked for nor queued (line 252). *)
Theorem single_url_run_queues_nothing fuel s link :
  truthy_opt (args_url cfg) = true ->
  EvAddToQueue link ∉ new_events s (while_loop cfg fuel s).2.
Proof.
  intros Hurl.
  destruct (while_loop_preserves queues_nothing
              (iteration_queues_nothing Hurl) fuel s) as (evs & Ht & Hk).
  rewrite (new_events_app _ _ _ Ht). apply Hk.
Qed.

(** *** URLs the loop passes over *)

(** A URL that matches one of the [--exclude] patterns, or whose path ends
    in one of the crawler's excluded extensions, is dropped silently: the
    iteration ends with [continue], no call is made and nothing is logged,
    the statistics and [network] are as they were, and the crawler is as
    [get_url_from_queue] left it: the URL is neither marked visited nor
    queued again. *)
Theorem excluded_url_dropped s url c :
  get_url_from_queue (crawler s) = (Some url, c) ->
  truthy (args_exclude cfg) && re_search_any cfg (args_exclude cfg) url
  || existsb (fun ext => endswith ext (urlparse_path cfg url))
       (EXCLUDED_EXTENSIONS c) = true ->
  exists s',
    iteration cfg s = (Continue, s')
    /\ new_events s s' = []
    /\ statistics s' = statistics s
    /\ network s' = network s
    /\ world s' = world s
    /\ crawler s' = c.
Proof.
  intros Hq Hex.
  set (s' := set_vars (mkLocals (Some url) (l_response2 (vars s))
                                (l_cache_status2 (vars s)))
               (set_crawler c s)).
  assert (select_url cfg s = (Continue, s')) as Hsel.
  { unfold select_url. exec. rewrite Hq. exec.
    destruct (is_visited c url); [done |].
    destruct (truthy (args_exclude cfg)
              && re_search_any cfg (args_exclude cfg) url); [done |].
    exec. cbn [orb] in Hex. by rewrite Hex. }
  exists s'. split.
  { apply iteration_of_body; [| done].
    unfold body. by rewrite (bind_Continue _ _ _ _ Hsel). }
  split; [| done].
  apply new_events_app. unfold s'. fields. by rewrite app_nil_r.
Qed.

(** The queue has no URL to give (line 221): the iteration ends with
    [break] with no call made, nothing logged and nothing written, [url]
    is [None], and the loop is over. *)
Theorem empty_queue_ends_the_loop s c :
  get_url_from_queue (crawler s) = (None, c) ->
  exists s',
    iteration cfg s = (Break, s')
    /\ new_events s s' = []
    /\ statistics s' = statistics s
    /\ network s' = network s
    /\ l_url (vars s') = None
    /\ forall fuel,
         (while_loop cfg (S fuel) s).1 = Finished
         /\ trace (while_loop cfg (S fuel) s).2 = trace s.
Proof.
  intros Hq.
  set (s' := set_vars (mkLocals None (l_response2 (vars s))
                                (l_cache_status2 (vars s)))
               (set_crawler c s)).
  assert (select_url cfg s = (Break, s')) as Hsel.
  { unfold select_url. exec. by rewrite Hq. }
  assert (iteration cfg s = (Break, s')) as Hit.
  { apply iteration_of_body; [| done].
    unfold body. by rewrite (bind_Break _ _ _ _ Hsel). }
  exists s'. split; [done |].
  split; [apply new_events_app; unfold s'; fields; by rewrite app_nil_r |].
  split; [done |]. split; [done |]. split; [done |].
  intros fuel. cbn [while_loop].
  destruct (should_continue (crawler s)); [| done]. by rewrite Hit.
Qed.

End LoopFacts.

(** ** Concrete runs *)

Import Fixture.

(** C1 fails on scenario C. The baseline and the second look carry the Date
    [D1], the cache-busted response carries [D2], and the entry the run
    leaves for the URL has the keys [cache_status], [date] and [cache]: no
    key holds a boolean, so none holds the outcome [True]. *)
Lemma C1_counterexample :
  let s' := (while_loop cfg 1 s_C).2 in
  URLs (statistics s') !! u
  = Some {[ "cache_status" := VStr "HIT"; "date" := VList ["D1"; "D1"; "D2"];
            "cache" := VList [] ]}
  /\ forall entry,
       URLs (statistics s') !! u = Some entry -> ~ has_bool_outcome entry true.
Proof.
  assert (URLs (statistics (while_loop cfg 1 s_C).2) !! u
          = Some {[ "cache_status" := VStr "HIT";
                    "date" := VList ["D1"; "D1"; "D2"];
                    "cache" := VList [] ]}) as Hentry
    by (vm_compute; reflexivity).
  split; [exact Hentry |].
  intros entry Hlookup. rewrite Hentry in Hlookup. injection Hlookup as <-.
  apply entry_no_bool.
Qed.

(** The amended C1 at scenario C. *)
Lemma C1_witness :
  exists s' entry,
    iteration cfg s_C = (Break, s')
    /\ URLs (statistics s') !! u = Some entry
    /\ entry = {[ "cache_status" := VStr "HIT";
                  "date" := VList ["D1"; "D1"; "D2"];
                  "cache" := VList (identify [("X-Cache", "HIT"); ("Date", "D1")]) ]}
    /\ (forall b, ~ has_bool_outcome entry b)
    /\ last (trace s')
       = Some (EvLog INFO ("The Date header is " +:+ OKGREEN +:+ "changing"
                           +:+ ENDC +:+ " after cache busting")).
Proof.
  apply (C1_busted_date_recorded_without_verdict cfg s_C u
           (response u [("X-Cache", "HIT"); ("Date", "D1")]) "HIT"
           (up_to_date_probe cfg s_C).2 "D1"
           (response u [("X-Cache", "HIT"); ("Date", "D1")])
           [inl (response (u +:+ "?cachebuster=1")
                          [("X-Cache", "MISS"); ("Date", "D2")])]
           (u +:+ "?cachebuster=1") headers []
           [inl (response (u +:+ "?cachebuster=1")
                          [("X-Cache", "MISS"); ("Date", "D2")])]
           (response (u +:+ "?cachebuster=1")
                     [("X-Cache", "MISS"); ("Date", "D2")])
           [] "D2");
    try (vm_compute; reflexivity).
  discriminate.
Defined.

(** C2, at the input where the code departs from it. The first response is
    a MISS with the Date [D0]; the second confirmation response is a HIT
    with the Date [D1], and [date_probe] ought to be entered with it (lines
    323-331 are written for that). The test of line 323 looks for the key
    ['response2'] where line 291 wrote ['request2'], so the first response
    is taken: the Date recorded as the first one is [D0], and the Date [D1]
    of the second look, equal to the one of the confirmation response, is
    compared with [D0] and logged as changing. *)
Theorem C2_second_look_compared_with_first_response :
  let s' := (while_loop cfg 1 s_miss_then_hit).2 in
  URLs (statistics s') !! u
  = Some {[ "cache_status" := VStr "HIT"; "date" := VList ["D0"; "D1"; "D2"];
            "cache" := VList [] ]}
  /\ messages (trace s')
     = [ "Visiting URL: " +:+ u;
         "The response gets cached -> cache_status = MISS/HIT";
         "Testing the Date header on " +:+ u;
         "Identified cache: " +:+ OKGREEN +:+ ENDC;
         "Found Date header: D0";
         "Found Date header: D1";
         "The Date header is " +:+ OKGREEN +:+ "changing" +:+ ENDC;
         "Found Date header: D2";
         "The Date header is " +:+ OKGREEN +:+ "changing" +:+ ENDC
           +:+ " after cache busting" ].
Proof. split; vm_compute; reflexivity. Qed.

(** C5, at the input where the code departs from it. The first response is
    a MISS without Date header; after 1 s and 2 s the URL is requested
    again and the second of these responses, a HIT with the Date [D1], is
    classified. [date_probe] is then entered with the first response (the
    key looked for in line 323 is never there): no Date is found, no
    further request is made, and the entry is left with an empty Date
    list. *)
Theorem C5_date_probe_entered_with_first_response :
  let s' := (while_loop cfg 1 s_miss_without_date).2 in
  timeline (trace s')
  = [ EvGet (first_request u);
      EvSleep 1000; EvGet (plain_request u);
      EvSleep 2000; EvGet (plain_request u) ]
  /\ messages (trace s')
     = [ "Visiting URL: " +:+ u;
         "The response gets cached -> cache_status = MISS/HIT";
         "Testing the Date header on " +:+ u ]
  /\ URLs (statistics s') !! u
     = Some {[ "cache_status" := VStr "HIT"; "date" := VList [] ]}.
Proof. repeat split; vm_compute; reflexivity. Qed.

(** C6 fails on scenario C: the URL is not in the visited set when the
    loop starts, the first call after the log message is its GET, and
    [add_to_visited] is only called after it. *)
Lemma C6_counterexample :
  let s' := (while_loop cfg 1 s_C).2 in
  is_visited (crawler s_C) u = false
  /\ take 3 (trace s')
     = [ EvLog INFO ("Visiting URL: " +:+ u);
         EvGet (first_request u);
         EvAddToVisited u ]
  /\ gets_follow_visits (visited_urls (crawler s_C)) (trace s') = false.
Proof. repeat split; vm_compute; reflexivity. Qed.

(** The amended C6 at scenario C. *)
Lemma C6_witness :
  is_visited (crawler (select_url cfg s_C).2) u = false.
Proof.
  refine (proj1 (proj1 (C6_visited_after_first_response cfg s_C) u
                   (select_url cfg s_C).2 _)).
  vm_compute. reflexivity.
Defined.

(** C7 fails on a HIT without Date header: the URL is given up in
    [date_probe], and the statistics keep the entry written on the way
    in. *)
Lemma C7_counterexample :
  let s' := (while_loop cfg 1 s_hit_without_date).2 in
  ci_contains "Date" [("X-Cache", "HIT")] = false
  /\ (while_loop cfg 1 s_hit_without_date).1 = Finished
  /\ URLs (statistics s') !! u
     = Some {[ "cache_status" := VStr "HIT"; "date" := VList [] ]}.
Proof. repeat split; vm_compute; reflexivity. Qed.

(** The amended C7 on a page no header tells a cache of, and on a HIT
    without Date header. *)
Lemma C7_witness :
  URLs (statistics (iteration cfg s_unknown).2) = URLs (statistics s_unknown)
  /\ exists s',
       iteration cfg s_hit_without_date = (Break, s')
       /\ URLs (statistics s')
          = <[u := {[ "cache_status" := VStr "HIT"; "date" := VList [] ]}]>
              (URLs (statistics s_hit_without_date)).
Proof.
  split.
  - apply (proj1 (C7_entry_written_before_date_check cfg s_unknown)).
    intros x. vm_compute. discriminate.
  - apply (proj2 (C7_entry_written_before_date_check cfg s_hit_without_date)
             u (response u [("X-Cache", "HIT")]) "HIT"
             (up_to_date_probe cfg s_hit_without_date).2);
      vm_compute; reflexivity.
Defined.

(** C8 on a queue of two URLs of which the first times out: the error is
    recorded and the loop goes on. *)
Lemma C8_witness :
  exists s',
    iteration cfg s_timeout = (Continue, s')
    /\ errors (statistics s')
       = Some [mkError (Some u) "ReadTimeout"
                       "Read timed out. (read timeout=30)"
                       "Traceback (most recent call last): ..."]
    /\ queue (crawler s') = [u2]
    /\ forall fuel, while_loop cfg (S fuel) s_timeout = while_loop cfg fuel s'.
Proof.
  assert (select_url cfg s_timeout = (Val u, (select_url cfg s_timeout).2))
    as Hsel by (vm_compute; reflexivity).
  assert (browser_get (world (select_url cfg s_timeout).2) (first_request u)
          = (inr timed_out, [inl (response u2 [("X-Cache", "HIT")])]))
    as Hget by (vm_compute; reflexivity).
  destruct (C8_transport_error_recorded cfg s_timeout u _ timed_out _
              Hsel Hget eq_refl)
    as (s' & Hit & Herr & _ & Hcr & _ & Hloop).
  exists s'. split; [exact Hit |]. split; [exact Herr |]. split.
  - rewrite Hcr. vm_compute. reflexivity.
  - apply Hloop. vm_compute. reflexivity.
Defined.

(** The loop of that run goes on to the second URL and ends there. *)
Example run_timeout_goes_on :
  let r := while_loop cfg 2 s_timeout in
  r.1 = Finished
  /\ messages (trace r.2)
     = [ "Visiting URL: " +:+ u;
         "ERROR: " +:+ u +:+ " -> Read timed out. (read timeout=30)";
         "Visiting URL: " +:+ u2;
         "The response gets cached -> cache_status = HIT";
         "Testing the Date header on " +:+ u2 ].
Proof. split; vm_compute; reflexivity. Qed.

(** C9 on the run of scenario C: the flag starts as [False] and ends as
    [True], a HIT having been seen. *)
Example flag_set_on_scenario_C :
  cache_headers (statistics s_C) = false
  /\ cache_headers (statistics (while_loop cfg 1 s_C).2) = true
  /\ cache_headers (statistics (while_loop cfg 1 s_unknown).2) = false.
Proof. repeat split; vm_compute; reflexivity. Qed.

(** C10 on a HIT whose second look has no Date header. *)
Lemma C10_witness :
  exists s',
    iteration cfg s_second_without_date = (Break, s')
    /\ existsb busting (new_events s_second_without_date s') = false
    /\ URLs (statistics s') !! u
       = Some {[ "cache_status" := VStr "HIT"; "date" := VList ["D1"];
                 "cache" := VList (identify [("X-Cache", "HIT"); ("Date", "D1")]) ]}.
Proof.
  apply (C10_no_cache_bust_without_second_date cfg s_second_without_date u
           (response u [("X-Cache", "HIT"); ("Date", "D1")]) "HIT"
           (up_to_date_probe cfg s_second_without_date).2 "D1"
           (response u [("X-Cache", "HIT")]) []);
    vm_compute; reflexivity.
Defined.

(** ** The further properties on concrete runs *)

(** A run of two queued URLs whose first request is interrupted: the loop
    is over with the second URL still queued. *)
Lemma interrupt_ends_the_loop_witness :
  exists s',
    iteration cfg s_interrupted = (Break, s')
    /\ statistics s' = statistics s_interrupted
    /\ queue (crawler s') = [u2]
    /\ visited_urls (crawler s') = []
    /\ while_loop cfg 5 s_interrupted = (Finished, s').
Proof.
  assert (select_url cfg s_interrupted
          = (Val u, (select_url cfg s_interrupted).2))
    as Hsel by (vm_compute; reflexivity).
  assert (browser_get (world (select_url cfg s_interrupted).2) (first_request u)
          = (inr interrupted, []))
    as Hget by (vm_compute; reflexivity).
  destruct (interrupt_ends_the_loop cfg s_interrupted u _ interrupted _
              Hsel Hget eq_refl)
    as (s' & Hit & Hst & Hcr & _ & Hloop).
  exists s'. split; [exact Hit |]. split; [exact Hst |].
  rewrite Hcr. split; [vm_compute; reflexivity |].
  split; [vm_compute; reflexivity |].
  apply (Hloop eq_refl 4%nat).
Defined.

(** A run whose first request raises [InvalidURL]. *)
Lemma other_exception_recorded_witness :
  exists s',
    iteration cfg s_invalid_url = (Val tt, s')
    /\ errors (statistics s')
       = Some [mkError (Some u) "InvalidURL" "Invalid URL: No host supplied"
                       "Traceback (most recent call last): ..."]
    /\ visited_urls (crawler s') = []
    /\ forall fuel,
         while_loop cfg (S fuel) s_invalid_url = while_loop cfg fuel s'.
Proof.
  assert (select_url cfg s_invalid_url
          = (Val u, (select_url cfg s_invalid_url).2))
    as Hsel by (vm_compute; reflexivity).
  assert (browser_get (world (select_url cfg s_invalid_url).2) (first_request u)
          = (inr invalid_url, [inl (response u2 [("X-Cache", "HIT")])]))
    as Hget by (vm_compute; reflexivity).
  destruct (other_exception_recorded cfg s_invalid_url u _ invalid_url _
              Hsel Hget eq_refl)
    as (s' & Hit & Herr & _ & Hcr & _ & Hloop).
  exists s'. split; [exact Hit |]. split; [exact Herr |].
  rewrite Hcr. split; [vm_compute; reflexivity |].
  apply Hloop. vm_compute. reflexivity.
Defined.

(** A page no header tells a cache of. *)
Lemma other_verdict_gives_up_witness :
  exists s',
    iteration cfg s_unknown = (Continue, s')
    /\ URLs (statistics s') = URLs (statistics s_unknown)
    /\ cache_headers (statistics s') = false
    /\ timeline (new_events s_unknown s') = [EvGet (first_request u)].
Proof.
  assert (select_url cfg s_unknown = (Val u, (select_url cfg s_unknown).2))
    as Hsel by (vm_compute; reflexivity).
  assert (browser_get (world (select_url cfg s_unknown).2) (first_request u)
          = (inl (response u [("Content-Type", "text/html")]), []))
    as Hget by (vm_compute; reflexivity).
  destruct (other_verdict_gives_up cfg s_unknown u _ _ _ Hsel Hget)
    as (s' & Hit & HURLs & Hflag & Htl & _); [discriminate | discriminate |].
  exists s'. split; [exact Hit |]. split; [exact HURLs |].
  split; [exact Hflag | exact Htl].
Defined.

(** A MISS followed by two more. *)
Lemma unconfirmed_miss_gives_up_witness :
  exists s',
    iteration cfg s_miss_stays = (Continue, s')
    /\ URLs (statistics s') = URLs (statistics s_miss_stays)
    /\ cache_headers (statistics s') = true.
Proof.
  assert (select_url cfg s_miss_stays = (Val u, (select_url cfg s_miss_stays).2))
    as Hsel by (vm_compute; reflexivity).
  assert (browser_get (world (select_url cfg s_miss_stays).2) (first_request u)
          = (inl (response u [("X-Cache", "MISS"); ("Date", "D0")]),
             [ inl (response u [("X-Cache", "MISS"); ("Date", "D1")]);
               inl (response u [("X-Cache", "MISS"); ("Date", "D2")]) ]))
    as Hget by (vm_compute; reflexivity).
  destruct (unconfirmed_miss_gives_up cfg s_miss_stays u _ _ _
              (response u [("X-Cache", "MISS"); ("Date", "D1")])
              [ inl (response u [("X-Cache", "MISS"); ("Date", "D2")]) ]
              (response u [("X-Cache", "MISS"); ("Date", "D2")]) []
              Hsel Hget eq_refl eq_refl eq_refl)
    as (s' & Hit & HURLs & Hflag & _); [discriminate |].
  exists s'. split; [exact Hit |]. split; [exact HURLs | exact Hflag].
Defined.

(** Scenario C up to [date_probe]. *)
Lemma results_keyed_by_final_url_witness :
  EvAddToVisited u ∈ new_events s_C (up_to_date_probe cfg s_C).2
  /\ is_Some (network (up_to_date_probe cfg s_C).2 !! u).
Proof.
  refine (proj2 (results_keyed_by_final_url cfg s_C u
                   (response u [("X-Cache", "HIT"); ("Date", "D1")]) "HIT"
                   (up_to_date_probe cfg s_C).2 _)).
  vm_compute. reflexivity.
Defined.

(** A HIT without Date header. *)
Lemma completed_cycle_ends_the_loop_witness :
  while_loop cfg 3 s_hit_without_date
  = (Finished,
     (date_probe cfg u (response u [("X-Cache", "HIT")]) "HIT"
        (up_to_date_probe cfg s_hit_without_date).2).2).
Proof.
  refine (completed_cycle_ends_the_loop cfg s_hit_without_date u
            (response u [("X-Cache", "HIT")]) "HIT"
            (up_to_date_probe cfg s_hit_without_date).2 _ _ _ _ 2%nat);
    vm_compute; reflexivity.
Defined.

(** A HIT whose second look times out. *)
Lemma second_look_failure_keeps_entry_witness :
  exists s',
    iteration cfg s_second_timeout = (Val tt, s')
    /\ URLs (statistics s') !! u
       = Some {[ "cache_status" := VStr "HIT"; "date" := VList ["D1"];
                 "cache" := VList (identify [("X-Cache", "HIT"); ("Date", "D1")]) ]}
    /\ errors (statistics s')
       = Some [mkError (Some u) "ReadTimeout"
                       "Read timed out. (read timeout=30)"
                       "Traceback (most recent call last): ..."]
    /\ forall fuel,
         while_loop cfg (S fuel) s_second_timeout = while_loop cfg fuel s'.
Proof.
  assert (up_to_date_probe cfg s_second_timeout
          = (Val (u, response u [("X-Cache", "HIT"); ("Date", "D1")], "HIT"),
             (up_to_date_probe cfg s_second_timeout).2))
    as Hup by (vm_compute; reflexivity).
  assert (browser_get (world (up_to_date_probe cfg s_second_timeout).2)
            (plain_request u)
          = (inr timed_out, [inl (response u2 [("X-Cache", "HIT")])]))
    as Hget by (vm_compute; reflexivity).
  destruct (second_look_failure_keeps_entry cfg s_second_timeout u _ "HIT" _
              "D1" timed_out _ Hup eq_refl Hget)
    as (s' & Hit & Hentry & Herr & Hloop); [discriminate |].
  exists s'. split; [exact Hit |]. split; [exact Hentry |].
  split; [exact Herr |]. apply Hloop. vm_compute. reflexivity.
Defined.

(** A HIT whose cache-busted response carries no Date header. *)
Lemma busted_response_without_date_witness :
  exists s',
    iteration cfg s_busted_without_date = (Break, s')
    /\ URLs (statistics s') !! u
       = Some {[ "cache_status" := VStr "HIT"; "date" := VList ["D1"; "D1"];
                 "cache" := VList (identify [("X-Cache", "HIT"); ("Date", "D1")]) ]}
    /\ last (trace s')
       = Some (EvGet (busted_request (u +:+ "?cachebuster=1") headers [])).
Proof.
  apply (busted_response_without_date cfg s_busted_without_date u
           (response u [("X-Cache", "HIT"); ("Date", "D1")]) "HIT"
           (up_to_date_probe cfg s_busted_without_date).2 "D1"
           (response u [("X-Cache", "HIT"); ("Date", "D1")])
           [inl (response (u +:+ "?cachebuster=1") [("X-Cache", "MISS")])]
           "D1"
           (u +:+ "?cachebuster=1") headers []
           [inl (response (u +:+ "?cachebuster=1") [("X-Cache", "MISS")])]
           (response (u +:+ "?cachebuster=1") [("X-Cache", "MISS")])
           []);
    vm_compute; reflexivity.
Defined.

(** The run of two URLs of which the first times out and the second is a
    cached page: the first URL is never announced and has no entry. *)
Lemma entries_written_where_announced_witness :
  URLs (statistics (while_loop cfg 2 s_timeout).2) !! u
  = URLs (statistics s_timeout) !! u.
Proof.
  apply (entries_written_where_announced cfg 2%nat s_timeout u).
  intros Hin. apply list_elem_of_In in Hin. vm_compute in Hin.
  intuition discriminate.
Defined.

(** On the same run the first URL is never marked visited and [network]
    holds nothing for it. *)
Lemma network_written_where_visited_witness :
  network (while_loop cfg 2 s_timeout).2 !! u = network s_timeout !! u.
Proof.
  apply (network_written_where_visited cfg 2%nat s_timeout u).
  intros Hin. apply list_elem_of_In in Hin. vm_compute in Hin.
  intuition discriminate.
Defined.

(** A MISS confirmed as a HIT: what is kept under ['first'] is the MISS. *)
Lemma first_is_the_first_exchange_witness :
  first_is_request1 u
    (exchange_of (response u [("X-Cache", "MISS"); ("Date", "D0")]))
    (iteration cfg s_miss_then_hit).2.
Proof.
  apply (first_is_the_first_exchange cfg s_miss_then_hit u
           (response u [("X-Cache", "MISS"); ("Date", "D0")]) "MISS"
           (up_to_date_probe cfg s_miss_then_hit).2).
  vm_compute. reflexivity.
Defined.

(** The runs here are started with [--url]. *)
Lemma single_url_run_queues_nothing_witness :
  EvAddToQueue u2 ∉ new_events s_C (while_loop cfg 1 s_C).2.
Proof.
  apply (single_url_run_queues_nothing cfg 1%nat s_C u2). reflexivity.
Defined.

(** A picture queued before the page: it is passed over and the page is
    the next URL. *)
Lemma excluded_url_dropped_witness :
  exists s',
    iteration cfg s_picture = (Continue, s')
    /\ new_events s_picture s' = []
    /\ queue (crawler s') = [u]
    /\ visited_urls (crawler s') = [].
Proof.
  assert (get_url_from_queue (crawler s_picture)
          = (Some u_picture, mkCrawler [u] [])) as Hq
    by (vm_compute; reflexivity).
  assert (truthy (args_exclude cfg)
          && re_search_any cfg (args_exclude cfg) u_picture
          || existsb (fun ext => endswith ext (urlparse_path cfg u_picture))
               (EXCLUDED_EXTENSIONS (mkCrawler [u] [])) = true) as Hex
    by (vm_compute; reflexivity).
  destruct (excluded_url_dropped cfg s_picture u_picture _ Hq Hex)
    as (s' & Hit & Hnew & _ & _ & _ & Hcr).
  exists s'. split; [exact Hit |]. split; [exact Hnew |]. by rewrite Hcr.
Defined.

(** The loop entered with an empty queue. *)
Lemma empty_queue_ends_the_loop_witness :
  exists s',
    iteration cfg s_empty = (Break, s')
    /\ new_events s_empty s' = []
    /\ l_url (vars s') = None.
Proof.
  assert (get_url_from_queue (crawler s_empty) = (None, mkCrawler [] [])) as Hq
    by (vm_compute; reflexivity).
  destruct (empty_queue_ends_the_loop cfg s_empty _ Hq)
    as (s' & Hit & Hnew & _ & _ & Hurl & _).
  exists s'. split; [exact Hit |]. split; [exact Hnew | exact Hurl].
Defined.

End DateHeaderFacts.
